(** * The Blackjack command of codeybot

    A shallow embedding of [src/commands/games/blackjack.ts] (the chat
    command [bj]) together with the contract of the game engine it drives
    ([components/games/blackjack]).

    Numbers: the command only handles integers (a bet resolved by the
    [integer] argument resolver, coin amounts of the engine), so a JavaScript
    [number] is a [Z] here; the command performs one subtraction and a few
    comparisons on them, which are exact on integers below 2^53.

    Effects: the command talks to the engine, to the coin store and to
    Discord.  A computation is a function from the engine's state to a
    result, the new engine state and the calls it issued, in order (the
    monad [M] below).  A JavaScript exception is the result [Raised]; a
    command that still waits for the player when the recorded input ends has
    the result [Awaiting].

    Discord: the loop of [messageRun] awaits three requests inside its own
    [try], and a rejection of any of them reaches the handler that submits
    QUIT: the collector of [awaitReactions] (rejected on its time limit),
    the removal of the player's reaction and the edit of the game message.
    All three can reject here.  The other requests (the first reply, the
    last edit, the reactions added and removed, the message to the user)
    are assumed to succeed: a rejection there would only end the run
    early. *)

From Stdlib Require Import ZArith String List Lia.
From stdpp Require Import base option list gmap strings pretty.

Open Scope string_scope.
Open Scope list_scope.
Open Scope Z_scope.

(** ** The engine's interface ([components/games/blackjack]) *)

Module BlackjackEngine.

Inductive BlackjackAction := HIT | STAND | QUIT.

Inductive BlackjackStage := IN_PROGRESS | DONE.

Inductive CardSuit := SPADES | HEARTS | CLUBS | DIAMONDS.

Inductive CardRank :=
| Two | Three | Four | Five | Six | Seven | Eight | Nine | Ten
| Jack | Queen | King | Ace.

Record Card := { rank : CardRank; suit : CardSuit }.

Definition BlackjackHand := list Card.

Record GameState := {
  playerId : string;
  channelId : string;
  bet : Z;
  deck : list Card;
  playerCards : BlackjackHand;
  dealerCards : BlackjackHand;
  stage : BlackjackStage;
  surrendered : bool;
  amountWon : Z;
}.

#[export] Instance BlackjackAction_eq_dec : EqDecision BlackjackAction.
Proof. solve_decision. Defined.

#[export] Instance BlackjackStage_eq_dec : EqDecision BlackjackStage.
Proof. solve_decision. Defined.

#[export] Instance CardRank_eq_dec : EqDecision CardRank.
Proof. solve_decision. Defined.

(** What a call into JavaScript code can do: return a value or throw. *)
Inductive Exn :=
| CodeyUserError (text : string)   (* thrown by the command itself *)
| TimeError                        (* the reaction collector ended on its time limit *)
| TypeError                        (* a property read on null *)
| EngineInvariantError             (* the engine's own fatal error *)
| DiscordAPIError.                 (* Discord rejected a request *)

Inductive Outcome (A : Type) :=
| Returns (a : A)
| Throws (e : Exn).
Arguments Returns {A} a.
Arguments Throws {A} e.

(** The three calls the command makes into the engine, over the engine's
    process-wide state [R] (its registry of games). *)
Class Engine (R : Type) := {
  startGame : Z -> string -> string -> R -> Outcome (option GameState) * R;
  performGameAction : string -> BlackjackAction -> R -> Outcome (option GameState) * R;
  endGame : string -> R -> R;
}.

Definition setStage (s : BlackjackStage) (game : GameState) : GameState :=
  {| playerId := playerId game; channelId := channelId game; bet := bet game;
     deck := deck game; playerCards := playerCards game;
     dealerCards := dealerCards game; stage := s;
     surrendered := surrendered game; amountWon := amountWon game |}.

End BlackjackEngine.

(** ** The command ([class GamesBlackjackCommand]) *)

Module GamesBlackjackCommand.
Import BlackjackEngine.

Definition DEFAULT_BET : Z := 10.
Definition MIN_BET : Z := 10.
Definition MAX_BET : Z := 1000000.

Definition validateBetAmount (amount : Z) : string :=
  if amount <? MIN_BET then "minimum bet is " +:+ pretty MIN_BET +:+ " Codey coins."
  else if amount >? MAX_BET then "maximum bet is " +:+ pretty MAX_BET +:+ " Codey coins."
  else "".

(** JavaScript's truth value of a string: the empty string is falsy. *)
Definition truthy (s : string) : bool := negb (String.eqb s "").

(** [reaction.emoji.name] is [string | null]. *)
Record MessageReaction := { emoji_name : option string }.

Record User := { id : string }.

Record Message := { author : User; channel_id : string }.

Definition reactFilter (reaction : MessageReaction) (user : User) (authorId : string) : bool :=
  match emoji_name reaction with
  | None => false
  | Some name =>
      bool_decide (name ∈ ["🇸"; "🇭"; "🇶"]) && bool_decide (id user = authorId)
  end.

Definition getBalanceChange (game : GameState) : Z :=
  amountWon game - bet game.

Definition getEmbedColourFromGame (game : GameState) : string :=
  if bool_decide (stage game = DONE) then
    if getBalanceChange game <? 0 then "Red"
    else if getBalanceChange game >? 0 then "Green"
    else "Orange"
  else "Yellow".

(** The embed: its title, its colour and the game its three fields (bet and
    description, player's hand, dealer's hand) are rendered from. *)
Record Embed := { title : string; colour : string; shown : GameState }.

Definition getEmbedFromGame (game : GameState) : Embed :=
  {| title := "Blackjack"; colour := getEmbedColourFromGame game; shown := game |}.

Inductive UserCoinEvent := Blackjack.

(** The options object passed to [awaitReactions] (the filter apart). *)
Record AwaitOptions := { max : nat; time : Z; errors : list string }.

(** What happens while the command waits for the player once: the
    reactions that arrive on the game message within the time limit, in
    order, and whether Discord rejects the removal of the player's reaction
    and the edit of the message, should the command request them. *)
Record WaitingPeriod := {
  reactions : list (MessageReaction * User);
  removeRejected : bool;
  editRejected : bool;
}.

(** The calls the command issues to its collaborators. *)
Inductive Event :=
| GetCoinBalanceByUserId (userId : string)
| AdjustCoinBalanceByUserId (userId : string) (amount : Z) (event : UserCoinEvent)
| StartGame (amount : Z) (player channel : string)
| PerformGameAction (player : string) (action : BlackjackAction)
| EndGame (player : string)
| MessageReply (text : string)
| MessageReplyEmbed (e : Embed)
| MsgEdit (e : Embed)
| MsgReact (emoji : string)
| AwaitReactions (options : AwaitOptions)
| ReactionUsersRemove (reaction : MessageReaction) (userId : string)
| ReactionsRemoveAll
| SendToUser (text : string).

Inductive Step (A : Type) :=
| Done (a : A)
| Raised (e : Exn)
| Awaiting.
Arguments Done {A} a.
Arguments Raised {A} e.
Arguments Awaiting {A}.

(** *** Computations *)

Definition M (R A : Type) : Type := R -> Step A * R * list Event.

Definition ret {R A} (a : A) : M R A := fun r => (Done a, r, []).

Definition bind {R A B} (m : M R A) (k : A -> M R B) : M R B :=
  fun r =>
    match m r with
    | (Done a, r1, l1) =>
        match k a r1 with
        | (s, r2, l2) => (s, r2, l1 ++ l2)
        end
    | (Raised e, r1, l1) => (Raised e, r1, l1)
    | (Awaiting, r1, l1) => (Awaiting, r1, l1)
    end.

Definition raise {R A} (e : Exn) : M R A := fun r => (Raised e, r, []).

(** [try { m } catch (e) { h e }]: the handler runs after what [m] did. *)
Definition try_catch {R A} (m : M R A) (h : Exn -> M R A) : M R A :=
  fun r =>
    match m r with
    | (Raised e, r1, l1) =>
        match h e r1 with
        | (s, r2, l2) => (s, r2, l1 ++ l2)
        end
    | other => other
    end.

Definition emit {R} (e : Event) : M R unit := fun r => (Done tt, r, [e]).

Definition awaiting {R A} : M R A := fun r => (Awaiting, r, []).

Definition ofOutcome {A} (o : Outcome A) : Step A :=
  match o with
  | Returns a => Done a
  | Throws e => Raised e
  end.

Notation "x <- m ;; k" := (bind m (fun x => k))
  (at level 20, m at level 99, k at level 200, only parsing).
Notation "m ;; k" := (bind m (fun _ => k))
  (at level 100, k at level 200, only parsing, right associativity).

Section Command.

Context {R : Type} {engine : Engine R}.

(** [getEmojiByName] of [components/emojis] is not part of this file. *)
Variable getEmojiByName : string -> string.

(** *** Calls to the collaborators *)

Definition call_startGame (amount : Z) (player channel : string) : M R (option GameState) :=
  fun r =>
    let '(o, r') := startGame amount player channel r in
    (ofOutcome o, r', [StartGame amount player channel]).

Definition call_performGameAction (player : string) (action : BlackjackAction)
  : M R (option GameState) :=
  fun r =>
    let '(o, r') := performGameAction player action r in
    (ofOutcome o, r', [PerformGameAction player action]).

Definition call_endGame (player : string) : M R unit :=
  fun r => (Done tt, BlackjackEngine.endGame player r, [EndGame player]).

(** The coin store is read once; [coins] is its content at that time. *)
Definition getCoinBalanceByUserId (coins : string -> Z) (userId : string) : M R Z :=
  fun r => (Done (coins userId), r, [GetCoinBalanceByUserId userId]).

(** [gameMessage.awaitReactions(options)] of discord.js: the collector takes
    the reactions that pass the filter, in order of arrival, until it has
    [max] of them; [arrivals] are the reactions that arrive within [time]
    milliseconds.  When the time limit ends the collector, the promise is
    rejected if [errors] lists ['time'], and resolves with what was collected
    otherwise.  The command calls it with [max: 1] only.  With no recorded
    waiting period the collector is still open: the call was made and the
    command is [Awaiting]. *)
Definition awaitReactions (options : AwaitOptions)
    (filter : MessageReaction -> User -> bool)
    (arrivals : option (list (MessageReaction * User))) : M R (list MessageReaction) :=
  fun r =>
    (match arrivals with
     | None => Awaiting
     | Some arrivals =>
         let passed := List.filter (fun ru => filter (fst ru) (snd ru)) arrivals in
         let collected := List.map fst (firstn (max options) passed) in
         if (length collected <? max options)%nat
         then if bool_decide ("time" ∈ errors options) then Raised TimeError
              else Done collected
         else Done collected
     end,
     r, [AwaitReactions options]).

(** *** The methods *)

(** The removal [gameMessage.reactions.resolve(reaction)?.users.remove(playerId)]
    is awaited: when Discord rejects it ([rejected]) the exception leaves the
    method before the [switch], so no action is submitted here. *)
Definition performActionFromReaction (collected : list MessageReaction)
    (player : string) (rejected : bool) : M R (option GameState) :=
  (* Collect the first reaction *)
  let reaction := head collected in
  (* Remove the user's reaction once we've received it *)
  match reaction with
  | Some re =>
      emit (ReactionUsersRemove re player) ;;
      if rejected then raise DiscordAPIError else ret tt
  | None => ret tt
  end ;;
  (* Perform action according to reaction *)
  match reaction ≫= emoji_name with
  | Some name =>
      if String.eqb name "🇸" then call_performGameAction player STAND
      else if String.eqb name "🇭" then call_performGameAction player HIT
      else if String.eqb name "🇶" then call_performGameAction player QUIT
      else ret None
  | None => ret None
  end.

(** [period] is the waiting period this call goes through, if it is
    recorded; the collector only resolves within a recorded period. *)
Definition handlePlayerAction (player : string) (period : option WaitingPeriod)
  : M R (option GameState) :=
  (* only waits for 1 valid reaction from the player, with a time limit of 1 minute. *)
  reactCollector <-
    awaitReactions {| max := 1; time := 60000; errors := ["time"] |}
      (fun reaction user => reactFilter reaction user player)
      (reactions <$> period) ;;
  (* perform action corresponding to reaction *)
  performActionFromReaction reactCollector player
    (from_option removeRejected false period).

(** The method [endGame] of the command (the engine's is [call_endGame]). *)
Definition endGame (player : string) (balanceChange : Z) : M R unit :=
  emit ReactionsRemoveAll ;;
  call_endGame player ;;
  emit (AdjustCoinBalanceByUserId player balanceChange Blackjack).

(** [await msg.edit({ embeds: [this.getEmbedFromGame(game!)] })]: [game!]
    is [game] at run time, and [getEmbedFromGame] reads [game.stage] first,
    before any request is made; [rejected]: Discord rejects the edit. *)
Definition editWithGame (game : option GameState) (rejected : bool) : M R unit :=
  match game with
  | Some g =>
      emit (MsgEdit (getEmbedFromGame g)) ;;
      if rejected then raise DiscordAPIError else ret tt
  | None => raise TypeError
  end.

(** [game && game?.stage != BlackjackStage.DONE] *)
Definition inPlay (game : option GameState) : bool :=
  match game with
  | Some g => negb (bool_decide (stage g = DONE))
  | None => false
  end.

(** One iteration of the [while] loop.  The handler assigns
    [game.stage = DONE] on the object the engine returned; the command reads
    that object only through [game] afterwards, so the assignment is the
    update of the local state. *)
Definition turn (player : string) (period : option WaitingPeriod)
  : M R (option GameState) :=
  try_catch
    ((* wait for user action *)
     game <- handlePlayerAction player period ;;
     editWithGame game (from_option editRejected false period) ;;
     ret game)
    (fun _ =>
       (* if player has not acted within time limit, consider it as quitting the game *)
       game <- call_performGameAction player QUIT ;;
       emit (MessageReply "you didn't act within the time limit, please start another game!") ;;
       ret (setStage DONE <$> game)).

(** The [while] loop; each iteration goes through one waiting period, and
    when none is left the iteration stops at its open collector. *)
Fixpoint playTurns (player : string) (turns : list WaitingPeriod)
    (game : option GameState) : M R (option GameState) :=
  if inPlay game then
    match turns with
    | period :: rest =>
        game' <- turn player (Some period) ;;
        playTurns player rest game'
    | [] => turn player None
    end
  else ret game.

(** [args.finished] and the result of [args.rest('integer')]. *)
Record Args := { finished : bool; rest_integer : option Z }.

(** The body of the outer [try] of [messageRun]; [Some tt] is [return msg]. *)
Definition messageRunBody (message : Message) (args : Args) (coins : string -> Z)
    (turns : list WaitingPeriod) : M R (option unit) :=
  amount <-
    (if finished args then ret DEFAULT_BET
     else match rest_integer args with
          | Some n => ret n
          | None => raise (CodeyUserError "please enter a valid bet amount.")
          end) ;;
  (* [typeof bet === 'string'] never holds: the resolver gives a number *)
  let validateRes := validateBetAmount amount in
  (if truthy validateRes
   then (* if validation function returns an error message, then send it *)
        raise (CodeyUserError validateRes)
   else ret tt) ;;
  (* check player balance and see if it can cover the bet amount *)
  playerBalance <- getCoinBalanceByUserId coins (id (author message)) ;;
  (if playerBalance <? amount
   then raise (CodeyUserError
                 ("you don't have enough coins to place that bet. "
                    +:+ getEmojiByName "codey_sad"))
   else ret tt) ;;
  (* initialize the game *)
  game <- call_startGame amount (id (author message)) (channel_id message) ;;
  match game with
  | None =>
      raise (CodeyUserError "please finish your current game before starting another one!")
  | Some g =>
      (* show game initial state and setup reactions *)
      emit (MessageReplyEmbed (getEmbedFromGame g)) ;;
      (if negb (bool_decide (stage g = DONE))
       then emit (MsgReact "🇭") ;; emit (MsgReact "🇸") ;; emit (MsgReact "🇶")
       else ret tt) ;;
      (* keep handling player action until game is done *)
      game <- playTurns (id (author message)) turns (Some g) ;;
      match game with
      | Some g =>
          (* update game embed *)
          emit (MsgEdit (getEmbedFromGame g)) ;;
          (* end the game *)
          endGame (id (author message)) (getBalanceChange g) ;;
          ret (Some tt)
      | None => ret None
      end
  end.

Definition messageRun (message : Message) (args : Args) (coins : string -> Z)
    (turns : list WaitingPeriod) : M R (option unit) :=
  try_catch (messageRunBody message args coins turns)
    (fun e =>
       match e with
       | CodeyUserError text => emit (SendToUser text) ;; ret None
       | _ => ret None
       end).

End Command.

End GamesBlackjackCommand.

(** ** The engine as the specification describes it

    [components/games/blackjack] is not among the sources; this module
    follows sections 3 and 4 of the specification. *)

Module SpecEngine.
Import BlackjackEngine.

(** Modelled from the spec: the hand value calculator of section 4.2 (the
    source of [handValues], [isBust] and [isBlackjack] is missing).  Ranks
    count at face value, 10 for J/Q/K; an ace counts 1 in the hard total. *)
Definition cardValue (c : Card) : Z :=
  match rank c with
  | Two => 2 | Three => 3 | Four => 4 | Five => 5 | Six => 6
  | Seven => 7 | Eight => 8 | Nine => 9
  | Ten | Jack | Queen | King => 10
  | Ace => 1
  end.

Definition hardTotal (hand : BlackjackHand) : Z :=
  foldr (fun c acc => cardValue c + acc) 0 hand.

Definition hasAce (hand : BlackjackHand) : bool :=
  existsb (fun c => bool_decide (rank c = Ace)) hand.

(** Modelled from the spec: "compute the hard total (all aces = 1); if the
    hand has at least one ace and hard total + 10 <= 21, the soft total
    (hard + 10) is also valid; expose both when applicable, else just the
    hard total". *)
Definition handValues (hand : BlackjackHand) : list Z :=
  let hard := hardTotal hand in
  if hasAce hand && (hard + 10 <=? 21) then [hard; hard + 10] else [hard].

(** Modelled from the spec: "the best total <= 21 (or the minimal bust total
    if busted)". *)
Definition bestTotal (hand : BlackjackHand) : Z :=
  let hard := hardTotal hand in
  if hasAce hand && (hard + 10 <=? 21) then hard + 10 else hard.

(** Modelled from the spec: "true iff every valid total > 21". *)
Definition isBust (hand : BlackjackHand) : bool :=
  forallb (fun v => 21 <? v) (handValues hand).

(** Modelled from the spec: "true iff hand has exactly 2 cards and the best
    total == 21". *)
Definition isBlackjack (hand : BlackjackHand) : bool :=
  (length hand =? 2)%nat && (bestTotal hand =? 21).

(** Modelled from the spec: [draw] of section 4.1 (source missing) removes
    and returns the top card, and fails on an empty deck. *)
Definition draw (d : list Card) : Outcome (Card * list Card) :=
  match d with
  | c :: rest => Returns (c, rest)
  | [] => Throws EngineInvariantError
  end.

(** Modelled from the spec: the dealer strategy of section 4.3 (source
    missing): the dealer draws until its best total is at least 17; a
    natural 21 and a bust are both at least 17, so neither draws. *)
Fixpoint dealerPlay (d : list Card) (hand : BlackjackHand) {struct d}
  : Outcome (list Card * BlackjackHand) :=
  if 17 <=? bestTotal hand then Returns (d, hand)
  else match d with
       | c :: rest => dealerPlay rest (hand ++ [c])
       | [] => Throws EngineInvariantError
       end.

(** Modelled from the spec: the settlement of STAND in section 4.4 (source
    missing): "dealer busts -> player wins (amountWon = 2 x bet); player
    total > dealer total -> player wins; equal -> push (amountWon = bet);
    player total < dealer total -> player loses (amountWon = 0)". *)
Definition settlement (stake : Z) (player dealer : BlackjackHand) : Z :=
  if isBust dealer then 2 * stake
  else if bestTotal dealer <? bestTotal player then 2 * stake
  else if bestTotal player =? bestTotal dealer then stake
  else 0.

Definition withOutcome (game : GameState) (d : list Card)
    (player dealer : BlackjackHand) (s : BlackjackStage) (quit : bool) (won : Z)
  : GameState :=
  {| playerId := playerId game; channelId := channelId game; bet := bet game;
     deck := d; playerCards := player; dealerCards := dealer; stage := s;
     surrendered := quit; amountWon := won |}.

(** Modelled from the spec: the transitions HIT, STAND and QUIT of section
    4.4 (the source of [performGameAction] is missing). *)
Definition applyAction (action : BlackjackAction) (game : GameState)
  : Outcome GameState :=
  match action with
  | HIT =>
      match draw (deck game) with
      | Returns (c, rest) =>
          let hand := playerCards game ++ [c] in
          if isBust hand
          then Returns (withOutcome game rest hand (dealerCards game) DONE
                          (surrendered game) 0)
          else Returns (withOutcome game rest hand (dealerCards game) IN_PROGRESS
                          (surrendered game) (amountWon game))
      | Throws e => Throws e
      end
  | STAND =>
      match dealerPlay (deck game) (dealerCards game) with
      | Returns (rest, dealer) =>
          Returns (withOutcome game rest (playerCards game) dealer DONE
                     (surrendered game)
                     (settlement (bet game) (playerCards game) dealer))
      | Throws e => Throws e
      end
  | QUIT =>
      Returns (withOutcome game (deck game) (playerCards game) (dealerCards game)
                 DONE true 0)
  end.

(** Modelled from the spec: the deal-time shortcut of section 4.4 (source
    missing).  A natural of the player is a push against a natural of the
    dealer and a win otherwise; the state is "immediately DONE if either
    party has a natural blackjack", so a natural of the dealer alone ends
    the game too, as the loss the comparison of totals gives.  No dealer
    draws: [settlement] is applied to the four cards dealt. *)
Definition dealShortcut (game : GameState) : GameState :=
  if isBlackjack (playerCards game) || isBlackjack (dealerCards game)
  then withOutcome game (deck game) (playerCards game) (dealerCards game) DONE
         (surrendered game)
         (settlement (bet game) (playerCards game) (dealerCards game))
  else game.

(** The registry of section 4.5, and how many decks were shuffled so far. *)
Record Registry := {
  gamesByPlayerId : gmap string GameState;
  shuffles : nat;
}.

Section Shuffle.

(** The random source: [newShuffledDeck n] is the deck of the [n]-th game. *)
Variable newShuffledDeck : nat -> list Card.

(** Modelled from the spec: [startGame] of section 4.4 (source missing):
    "fails (returns null) if the registry already holds an active game for
    playerId.  Otherwise shuffles a deck, deals 2 cards to player then 2 to
    dealer, applies the deal-time shortcut if applicable, and registers the
    instance".  A game that starts has no coins settled yet: [amountWon] is
    0 until settlement. *)
Definition startGame (stake : Z) (player channel : string) (reg : Registry)
  : Outcome (option GameState) * Registry :=
  match gamesByPlayerId reg !! player with
  | Some _ => (Returns None, reg)
  | None =>
      match newShuffledDeck (shuffles reg) with
      | p1 :: p2 :: d1 :: d2 :: rest =>
          let game :=
            dealShortcut
              {| playerId := player; channelId := channel; bet := stake;
                 deck := rest; playerCards := [p1; p2]; dealerCards := [d1; d2];
                 stage := IN_PROGRESS; surrendered := false; amountWon := 0 |} in
          (Returns (Some game),
           {| gamesByPlayerId := <[player := game]> (gamesByPlayerId reg);
              shuffles := S (shuffles reg) |})
      | _ => (Throws EngineInvariantError, reg)
      end
  end.

(** Modelled from the spec: [performGameAction] of section 4.4 (source
    missing): "a GameState exists for playerId and its stage is IN_PROGRESS;
    otherwise returns a null/no-op result". *)
Definition performGameAction (player : string) (action : BlackjackAction)
    (reg : Registry) : Outcome (option GameState) * Registry :=
  match gamesByPlayerId reg !! player with
  | Some game =>
      if bool_decide (stage game = IN_PROGRESS) then
        match applyAction action game with
        | Returns game' =>
            (Returns (Some game'),
             {| gamesByPlayerId := <[player := game']> (gamesByPlayerId reg);
                shuffles := shuffles reg |})
        | Throws e => (Throws e, reg)
        end
      else (Returns None, reg)
  | None => (Returns None, reg)
  end.

(** Modelled from the spec: [endGame] of section 4.4 (source missing)
    "removes the instance from the registry unconditionally". *)
Definition endGame (player : string) (reg : Registry) : Registry :=
  {| gamesByPlayerId := delete player (gamesByPlayerId reg);
     shuffles := shuffles reg |}.

Definition specEngine : Engine Registry :=
  {| BlackjackEngine.startGame := startGame;
     BlackjackEngine.performGameAction := performGameAction;
     BlackjackEngine.endGame := endGame |}.

End Shuffle.

End SpecEngine.

(** ** An engine that answers from a script

    The command is written against the type [GameState | null] of the
    engine's answers; this engine returns recorded answers, one per call of
    [startGame] or [performGameAction], and null once the record is used up. *)

Module ScriptedEngine.
Import BlackjackEngine.

Definition Script := list (Outcome (option GameState)).

Definition answer (script : Script) : Outcome (option GameState) * Script :=
  match script with
  | o :: rest => (o, rest)
  | [] => (Returns None, [])
  end.

Definition scriptedEngine : Engine Script :=
  {| startGame := fun _ _ _ => answer;
     performGameAction := fun _ _ => answer;
     endGame := fun _ script => script |}.

End ScriptedEngine.

(** ** An engine that keeps a journal of its answers

    The command takes any engine; run against [recording E] it meets the
    answers of [E], and the engine state carries, besides the state of [E],
    every call of [startGame] and [performGameAction] with its answer, in
    order. *)

Module Journal.
Import BlackjackEngine GamesBlackjackCommand.

Abbreviation Entry := (Event * Outcome (option GameState))%type.

Definition recording {R : Type} (E : Engine R) : Engine (R * list Entry) :=
  {| startGame := fun amount player channel st =>
       let '(o, r') := startGame amount player channel (fst st) in
       (o, (r', snd st ++ [(StartGame amount player channel, o)]));
     performGameAction := fun player action st =>
       let '(o, r') := performGameAction player action (fst st) in
       (o, (r', snd st ++ [(PerformGameAction player action, o)]));
     BlackjackEngine.endGame := fun player st =>
       (BlackjackEngine.endGame player (fst st), snd st) |}.

(** The answers of [performGameAction] in a journal. *)
Definition actionAnswers (journal : list Entry) : list (Outcome (option GameState)) :=
  omap (fun entry => match fst entry with
                     | PerformGameAction _ _ => Some (snd entry)
                     | _ => None
                     end) journal.

(** Null answers that stay: once [performGameAction] has answered null, it
    answers null to a QUIT that follows at once. *)
Definition nullStays {R : Type} (E : Engine R) : Prop :=
  forall player action (r : R),
    fst (performGameAction player action r) = Returns None ->
    fst (performGameAction player QUIT (snd (performGameAction player action r))) =
      Returns None.

End Journal.

(** ** Reading the calls of a run *)

Module Calls.
Import BlackjackEngine GamesBlackjackCommand.

(** A call into the engine. *)
Definition isEngineCall (e : Event) : bool :=
  match e with
  | StartGame _ _ _ | PerformGameAction _ _ | EndGame _ => true
  | _ => false
  end.

(** The two calls of settlement: the engine's [endGame] and the adjustment
    of the coin balance. *)
Definition isSettlementCall (e : Event) : bool :=
  match e with
  | EndGame _ | AdjustCoinBalanceByUserId _ _ _ => true
  | _ => false
  end.

(** A call that belongs to the game loop or to what follows it. *)
Definition isGameCall (e : Event) : bool :=
  match e with
  | PerformGameAction _ _ | EndGame _ | AdjustCoinBalanceByUserId _ _ _
  | AwaitReactions _ | MsgEdit _ | MessageReplyEmbed _ | MsgReact _ => true
  | _ => false
  end.

(** The bet a request resolves to, when its argument is an integer or absent. *)
Definition requestedBet (args : Args) : option Z :=
  if finished args then Some DEFAULT_BET else rest_integer args.

(** The four calls that end a run which returns the game message. *)
Definition settlementCalls (player : string) (game : GameState) : list Event :=
  [ MsgEdit (getEmbedFromGame game); ReactionsRemoveAll; EndGame player;
    AdjustCoinBalanceByUserId player (amountWon game - bet game) Blackjack ].

(** The options of the collector of [handlePlayerAction]. *)
Definition oneMinute : AwaitOptions :=
  {| max := 1; time := 60000; errors := ["time"] |}.

(** Every call a computation issues, from any engine state, satisfies [P]. *)
Definition emitsOnly {R A : Type} (P : Event -> Prop) (m : M R A) : Prop :=
  forall r : R, Forall P (snd (m r)).

Definition notSettlement (e : Event) : Prop := isSettlementCall e = false.

Definition notEngineCall (e : Event) : Prop := isEngineCall e = false.

Definition notGameCall (e : Event) : Prop := isGameCall e = false.

(** A run settles at most once, at its very end, for a game that is DONE:
    a run that returns the game message ends with [settlementCalls] and has
    no settlement call before; any other run has none at all. *)
Definition settlesOnce {R A : Type} (player : string)
    (res : Step (option A) * R * list Event) : Prop :=
  match res with
  | (Done (Some _), _, log) =>
      exists game pre,
        stage game = DONE /\ Forall notSettlement pre /\
        log = pre ++ settlementCalls player game
  | (_, _, log) => Forall notSettlement log
  end.

(** What [messageRun] does once a game has started: the reply, the three
    reactions, the loop and the settlement. *)
Definition afterStart {R : Type} {engine : Engine R} (message : Message)
    (turns : list WaitingPeriod) (g : GameState)
  : M R (option unit) :=
  emit (MessageReplyEmbed (getEmbedFromGame g)) ;;
  (if negb (bool_decide (stage g = DONE))
   then emit (MsgReact "🇭") ;; emit (MsgReact "🇸") ;; emit (MsgReact "🇶")
   else ret tt) ;;
  game <- playTurns (id (author message)) turns (Some g) ;;
  match game with
  | Some g =>
      emit (MsgEdit (getEmbedFromGame g)) ;;
      endGame (id (author message)) (getBalanceChange g) ;;
      ret (Some tt)
  | None => ret None
  end.

(** The handler of the loop, run in engine state [r] after the calls
    [before]: QUIT is submitted, and unless the engine throws the player is
    told about the time limit and the answer, if any, is set to DONE. *)
Definition quitSubmitted {R : Type} {engine : Engine R} (player : string) (r : R)
    (before : list Event) : Step (option GameState) * R * list Event :=
  match performGameAction player QUIT r with
  | (Returns answer, r') =>
      (Done (setStage DONE <$> answer), r',
       before ++ [ PerformGameAction player QUIT;
                   MessageReply "you didn't act within the time limit, please start another game!" ])
  | (Throws e, r') => (Raised e, r', before ++ [PerformGameAction player QUIT])
  end.

(** What a game that started shows first: the reply with the embed and,
    unless the game is DONE already, the three reactions. *)
Definition shownAtStart (g : GameState) : list Event :=
  MessageReplyEmbed (getEmbedFromGame g)
    :: (if bool_decide (stage g = DONE) then []
        else [MsgReact "🇭"; MsgReact "🇸"; MsgReact "🇶"]).

End Calls.

(** ** Concrete games and requests *)

Module Samples.
Import BlackjackEngine GamesBlackjackCommand.

Definition card (r : CardRank) (s : CardSuit) : Card := {| rank := r; suit := s |}.

Definition alice : User := {| id := "alice" |}.
Definition bob : User := {| id := "bob" |}.

Definition request : Message := {| author := alice; channel_id := "games" |}.

Definition noArgs : Args := {| finished := true; rest_integer := None |}.
Definition betOf (n : Z) : Args := {| finished := false; rest_integer := Some n |}.

Definition emojiText (name : string) : string := ":" +:+ name +:+ ":".

Definition reacts (name : string) (u : User) : MessageReaction * User :=
  ({| emoji_name := Some name |}, u).

(** A waiting period in which Discord accepts every request. *)
Definition period (arrivals : list (MessageReaction * User)) : WaitingPeriod :=
  {| reactions := arrivals; removeRejected := false; editRejected := false |}.

(** Player 20 (king, queen) against a dealer showing 6 and 5. *)
Definition dealt : GameState :=
  {| playerId := "alice"; channelId := "games"; bet := 10;
     deck := [card Ten HEARTS; card Four CLUBS];
     playerCards := [card King SPADES; card Queen HEARTS];
     dealerCards := [card Six CLUBS; card Five DIAMONDS];
     stage := IN_PROGRESS; surrendered := false; amountWon := 0 |}.

(** A twenty against a dealer who stood on 17. *)
Definition won : GameState :=
  {| playerId := "alice"; channelId := "games"; bet := 10;
     deck := [];
     playerCards := [card King SPADES; card Queen HEARTS];
     dealerCards := [card Ten CLUBS; card Seven DIAMONDS];
     stage := DONE; surrendered := false; amountWon := 20 |}.

(** [dealt] after STAND: the dealer drew the ten of hearts. *)
Definition lost : GameState :=
  {| playerId := "alice"; channelId := "games"; bet := 10;
     deck := [card Four CLUBS];
     playerCards := [card King SPADES; card Queen HEARTS];
     dealerCards := [card Six CLUBS; card Five DIAMONDS; card Ten HEARTS];
     stage := DONE; surrendered := false; amountWon := 0 |}.

Definition pushed : GameState :=
  {| playerId := "alice"; channelId := "games"; bet := 10;
     deck := [];
     playerCards := [card King SPADES; card Queen HEARTS];
     dealerCards := [card Ten CLUBS; card Jack DIAMONDS];
     stage := DONE; surrendered := false; amountWon := 10 |}.

Definition gaveUp : GameState :=
  {| playerId := "alice"; channelId := "games"; bet := 10;
     deck := [card Ten HEARTS; card Four CLUBS];
     playerCards := [card King SPADES; card Queen HEARTS];
     dealerCards := [card Six CLUBS; card Five DIAMONDS];
     stage := DONE; surrendered := true; amountWon := 0 |}.

(** A deck whose first four cards deal [dealt]. *)
Definition stacked (_ : nat) : list Card :=
  [card King SPADES; card Queen HEARTS; card Six CLUBS; card Five DIAMONDS;
   card Ten HEARTS; card Four CLUBS].

Definition emptyRegistry : SpecEngine.Registry :=
  {| SpecEngine.gamesByPlayerId := ∅; SpecEngine.shuffles := 0 |}.

Definition aliceAtTable : SpecEngine.Registry :=
  {| SpecEngine.gamesByPlayerId := {[ "alice" := dealt ]}; SpecEngine.shuffles := 1 |}.

Definition rich (_ : string) : Z := 500.
Definition poor (_ : string) : Z := 3.

End Samples.


(** ** The texts of the embed ([getSuitEmoji], [getHandDisplayString],
    [getDescriptionFromGame] and the fields of [getEmbedFromGame]) *)

Module EmbedText.
Import BlackjackEngine GamesBlackjackCommand.

(** A field of an embed, as passed to [embed.addFields]. *)
Record EmbedField := { name : string; value : string }.

Section Texts.

(** What the methods read from modules that are not part of this file: the
    string value of each member of the enum [CardSuit], the properties
    [text] and [suite] of a card and [playerValue] and [dealerValue] of a
    game state ([components/games/blackjack]), [getEmojiByName] and
    [getCoinEmoji] ([components/emojis]) and [pluralize]
    ([utils/pluralize]). *)
Variable suitValue : CardSuit -> string.
Variable text : Card -> string.
Variable suite : Card -> string.
Variable playerValue : GameState -> list Z.
Variable dealerValue : GameState -> list Z.
Variable getEmojiByName : string -> string.
Variable getCoinEmoji : string.
Variable pluralize : string -> Z -> string.

(** The [switch] compares [suit] with the cases in order, by [===]. *)
Definition getSuitEmoji (suit : string) : string :=
  if String.eqb suit (suitValue SPADES) then "♤"
  else if String.eqb suit (suitValue HEARTS) then "♡"
  else if String.eqb suit (suitValue CLUBS) then "♧"
  else if String.eqb suit (suitValue DIAMONDS) then "♢"
  else "".

(** [`${card.text}${this.getSuitEmoji(card.suite)}`] *)
Definition cardDisplay (c : Card) : string :=
  text c +:+ getSuitEmoji (suite c).

(** [Array.prototype.join] is [String.concat]. *)
Definition getHandDisplayString (hand : BlackjackHand) : string :=
  let cards := String.concat " " (List.map cardDisplay hand) in
  "Hand: " +:+ cards.

(** A number in a template literal is printed in decimal (amounts stay far
    below 10^21, where JavaScript changes to the exponent form). *)
Definition getDescriptionFromGame (game : GameState) : string :=
  let amountDiff := Z.abs (getBalanceChange game) in
  if bool_decide (stage game = DONE) then
    if surrendered game then
      (* player surrendered *)
      "You surrendered and lost **" +:+ pretty amountDiff +:+ "** Codey "
        +:+ pluralize "coin" amountDiff +:+ " " +:+ getEmojiByName "codey_sad" +:+ "."
    else if amountWon game <? bet game then
      (* player lost *)
      "You lost **" +:+ pretty amountDiff +:+ "** Codey "
        +:+ pluralize "coin" amountDiff +:+ " " +:+ getEmojiByName "codey_sad"
        +:+ ", better luck next time!"
    else if amountWon game >? bet game then
      (* player won *)
      "You won **" +:+ pretty amountDiff +:+ "** Codey "
        +:+ pluralize "coin" amountDiff +:+ " " +:+ getEmojiByName "codey_love"
        +:+ ", keep your win streak going!"
    else
      (* player tied with dealer *)
      "Tied! You didn't win nor lose any Codey " +:+ pluralize "coin" amountDiff
        +:+ ", try again!"
  else
    (* game instruction *)
    "Press 🇭 to hit, 🇸 to stand, or 🇶 to quit.".

(** The argument of [embed.addFields] in [getEmbedFromGame]. *)
Definition getEmbedFields (game : GameState) : list EmbedField :=
  [ (* show bet amount and game description *)
    {| name := "Bet: " +:+ pretty (bet game) +:+ " " +:+ getCoinEmoji;
       value := getDescriptionFromGame game |};
    (* show player and dealer value and hands *)
    {| name := "Player: " +:+ String.concat " or " (List.map pretty (playerValue game));
       value := getHandDisplayString (playerCards game) |};
    {| name := "Dealer: " +:+ String.concat " or " (List.map pretty (dealerValue game));
       value := getHandDisplayString (dealerCards game) |} ].

End Texts.

End EmbedText.

(** ** Reading the calls of a run, continued *)

Module MoreCalls.
Import BlackjackEngine GamesBlackjackCommand Calls.

Definition isStartGameCall (e : Event) : bool :=
  match e with
  | StartGame _ _ _ => true
  | _ => false
  end.

Definition isSendToUser (e : Event) : bool :=
  match e with
  | SendToUser _ => true
  | _ => false
  end.

(** The reactions the command puts under the game message. *)
Definition reactionsOffered (log : list Event) : list string :=
  omap (fun e => match e with MsgReact emoji => Some emoji | _ => None end) log.

(** Every call that names a user names [user]. *)
Definition namesOnly (user : string) (e : Event) : Prop :=
  match e with
  | GetCoinBalanceByUserId u | AdjustCoinBalanceByUserId u _ _
  | StartGame _ u _ | PerformGameAction u _ | EndGame u
  | ReactionUsersRemove _ u => u = user
  | _ => True
  end.

(** The action the command submits for an emoji name. *)
Definition actionFor (emoji : string) (action : BlackjackAction) : Prop :=
  (emoji = "🇸" /\ action = STAND) \/ (emoji = "🇭" /\ action = HIT) \/
  (emoji = "🇶" /\ action = QUIT).

End MoreCalls.

(** ** More concrete values *)

Module MoreSamples.
Import BlackjackEngine GamesBlackjackCommand Samples.

Definition suitName (s : CardSuit) : string :=
  match s with
  | SPADES => "spades" | HEARTS => "hearts" | CLUBS => "clubs" | DIAMONDS => "diamonds"
  end.

Definition rankText (c : Card) : string :=
  match rank c with
  | Two => "2" | Three => "3" | Four => "4" | Five => "5" | Six => "6"
  | Seven => "7" | Eight => "8" | Nine => "9" | Ten => "10"
  | Jack => "J" | Queen => "Q" | King => "K" | Ace => "A"
  end.

Definition suiteOf (c : Card) : string := suitName (suit c).

Definition plural (word : string) (n : Z) : string :=
  if n =? 1 then word else word +:+ "s".

Definition playerTotals (g : GameState) : list Z := SpecEngine.handValues (playerCards g).
Definition dealerTotals (g : GameState) : list Z := SpecEngine.handValues (dealerCards g).

(** A natural at the deal: the game is DONE when it starts. *)
Definition natural : GameState :=
  {| playerId := "alice"; channelId := "games"; bet := 10; deck := [];
     playerCards := [card Ace SPADES; card King HEARTS];
     dealerCards := [card Nine CLUBS; card Queen DIAMONDS];
     stage := DONE; surrendered := false; amountWon := 20 |}.

Definition notANumber : Args := {| finished := false; rest_integer := None |}.

Definition exact (_ : string) : Z := 10.

End MoreSamples.

(** * Properties *)

Import BlackjackEngine GamesBlackjackCommand Calls.

(** ** What a computation emits *)

Section Emissions.

Context {R : Type} {engine : Engine R}.

Lemma emitsOnly_ret {A} (P : Event -> Prop) (a : A) : emitsOnly P (ret (R:=R) a).
Proof. intros r. constructor. Qed.

Lemma emitsOnly_raise {A} (P : Event -> Prop) (e : Exn) :
  emitsOnly P (raise (R:=R) (A:=A) e).
Proof. intros r. constructor. Qed.

Lemma emitsOnly_awaiting {A} (P : Event -> Prop) :
  emitsOnly P (awaiting (R:=R) (A:=A)).
Proof. intros r. constructor. Qed.

Lemma emitsOnly_emit (P : Event -> Prop) (e : Event) :
  P e -> emitsOnly P (emit (R:=R) e).
Proof. intros He r. simpl. repeat constructor. exact He. Qed.

Lemma emitsOnly_bind {A B} (P : Event -> Prop) (m : M R A) (k : A -> M R B) :
  emitsOnly P m -> (forall a, emitsOnly P (k a)) -> emitsOnly P (bind m k).
Proof.
  intros Hm Hk r. unfold bind. specialize (Hm r).
  destruct (m r) as [[[a | e |] r1] l1]; simpl in *; try exact Hm.
  specialize (Hk a r1). destruct (k a r1) as [[s r2] l2]; simpl in *.
  apply Forall_app; split; assumption.
Qed.

Lemma emitsOnly_try_catch {A} (P : Event -> Prop) (m : M R A) (h : Exn -> M R A) :
  emitsOnly P m -> (forall e, emitsOnly P (h e)) -> emitsOnly P (try_catch m h).
Proof.
  intros Hm Hh r. unfold try_catch. specialize (Hm r).
  destruct (m r) as [[[a | e |] r1] l1]; simpl in *; try exact Hm.
  specialize (Hh e r1). destruct (h e r1) as [[s r2] l2]; simpl in *.
  apply Forall_app; split; assumption.
Qed.

Lemma emitsOnly_performGameAction (P : Event -> Prop) player action :
  P (PerformGameAction player action) ->
  emitsOnly P (call_performGameAction player action).
Proof.
  intros HP r. unfold call_performGameAction.
  destruct (performGameAction player action r) as [o r']. simpl.
  repeat constructor. exact HP.
Qed.

Lemma emitsOnly_startGame (P : Event -> Prop) amount player channel :
  P (StartGame amount player channel) ->
  emitsOnly P (call_startGame amount player channel).
Proof.
  intros HP r. unfold call_startGame.
  destruct (startGame amount player channel r) as [o r']. simpl.
  repeat constructor. exact HP.
Qed.

Lemma emitsOnly_awaitReactions (P : Event -> Prop) options filter arrivals :
  P (AwaitReactions options) ->
  emitsOnly (R:=R) P (awaitReactions options filter arrivals).
Proof. intros HP r. simpl. repeat constructor. exact HP. Qed.

Lemma emitsOnly_getCoinBalanceByUserId (P : Event -> Prop) coins userId :
  P (GetCoinBalanceByUserId userId) ->
  emitsOnly (R:=R) P (getCoinBalanceByUserId coins userId).
Proof. intros HP r. simpl. repeat constructor. exact HP. Qed.

End Emissions.

(** Goes through a computation built from the pieces above. *)
Ltac calls :=
  repeat first
    [ apply emitsOnly_ret | apply emitsOnly_raise | apply emitsOnly_awaiting
    | apply emitsOnly_emit | apply emitsOnly_performGameAction
    | apply emitsOnly_awaitReactions | apply emitsOnly_getCoinBalanceByUserId
    | apply emitsOnly_startGame
    | apply emitsOnly_bind | apply emitsOnly_try_catch
    | exact eq_refl
    | match goal with
      | |- emitsOnly _ (match ?x with _ => _ end) => destruct x
      | |- forall _, _ => intro
      end ].

(** ** The pure helpers of the command *)

Section Helpers.

Lemma truthy_nonempty (s : string) : truthy s = true <-> s <> "".
Proof.
  unfold truthy. destruct (String.eqb_spec s "") as [-> | Hne]; simpl.
  - split; [discriminate | intros Hs; now contradiction Hs].
  - split; [intros _; exact Hne | reflexivity].
Qed.

Lemma truthy_false_empty (s : string) : s = "" -> truthy s = false.
Proof. now intros ->. Qed.

Lemma validateBetAmount_cases (amount : Z) :
  (amount < 10 /\ validateBetAmount amount = "minimum bet is 10 Codey coins.") \/
  (amount > 1000000 /\ validateBetAmount amount = "maximum bet is 1000000 Codey coins.") \/
  (10 <= amount <= 1000000 /\ validateBetAmount amount = "").
Proof.
  unfold validateBetAmount, MIN_BET, MAX_BET.
  destruct (Z.ltb_spec amount 10) as [Hlo | Hlo].
  - left. split; [exact Hlo | reflexivity].
  - destruct (Z.gtb_spec amount 1000000) as [Hhi | Hhi].
    + right; left. split; [lia | reflexivity].
    + right; right. split; [lia | reflexivity].
Qed.

Lemma validateBetAmount_error_iff (amount : Z) :
  validateBetAmount amount <> "" <-> amount < 10 \/ amount > 1000000.
Proof.
  destruct (validateBetAmount_cases amount) as [[H ->] | [[H ->] | [H ->]]].
  - split; [intros _; left; exact H | discriminate].
  - split; [intros _; right; exact H | discriminate].
  - split; [intros Hne; now contradiction Hne | lia].
Qed.

Lemma inPlay_false_Some (game : GameState) :
  inPlay (Some game) = false -> stage game = DONE.
Proof.
  simpl. destruct (bool_decide (stage game = DONE)) eqn:Hd; [| discriminate].
  intros _. now apply bool_decide_eq_true in Hd.
Qed.

Lemma inPlay_setStage_DONE (answer : option GameState) :
  inPlay (setStage DONE <$> answer) = false.
Proof. destruct answer; reflexivity. Qed.

Lemma filter_none player (arrivals : list (MessageReaction * User)) :
  Forall (fun ru => reactFilter (fst ru) (snd ru) player = false) arrivals ->
  List.filter (fun ru => reactFilter (fst ru) (snd ru) player) arrivals = [].
Proof.
  induction 1 as [| ru rest Hru _ IH]; simpl; [reflexivity |].
  now rewrite Hru.
Qed.

Lemma reactFilter_true_iff reaction user authorId :
  reactFilter reaction user authorId = true <->
  (emoji_name reaction = Some "🇸" \/ emoji_name reaction = Some "🇭" \/
   emoji_name reaction = Some "🇶") /\ id user = authorId.
Proof.
  unfold reactFilter. destruct (emoji_name reaction) as [name |].
  - rewrite andb_true_iff, !bool_decide_eq_true, !elem_of_cons, elem_of_nil.
    split.
    + intros [[-> | [-> | [-> | []]]] Hid]; auto.
    + intros [[[= ->] | [[= ->] | [= ->]]] Hid]; auto.
  - split; [discriminate | intros [[H | [H | H]] _]; discriminate].
Qed.

(** C9: the colour of the embed is Yellow for a game that is not DONE, and
    for a DONE game Red, Green or Orange as amountWon is below, above or
    equal to the bet; two games of the same stage and the same sign of
    amountWon - bet have the same colour. *)
Theorem embed_colour_by_stage_and_sign (game : GameState) :
  (stage game <> DONE -> getEmbedColourFromGame game = "Yellow") /\
  (stage game = DONE -> amountWon game < bet game ->
     getEmbedColourFromGame game = "Red") /\
  (stage game = DONE -> amountWon game > bet game ->
     getEmbedColourFromGame game = "Green") /\
  (stage game = DONE -> amountWon game = bet game ->
     getEmbedColourFromGame game = "Orange") /\
  (forall other : GameState,
     stage other = stage game ->
     Z.sgn (amountWon other - bet other) = Z.sgn (amountWon game - bet game) ->
     getEmbedColourFromGame other = getEmbedColourFromGame game).
Proof.
  assert (Hcol : forall g : GameState,
            getEmbedColourFromGame g =
              match stage g, Z.sgn (amountWon g - bet g) with
              | DONE, Z0 => "Orange"
              | DONE, Zpos _ => "Green"
              | DONE, Zneg _ => "Red"
              | IN_PROGRESS, _ => "Yellow"
              end).
  { intros g. unfold getEmbedColourFromGame, getBalanceChange.
    destruct (stage g); simpl; [reflexivity |].
    destruct (amountWon g - bet g); reflexivity. }
  repeat split.
  - intros Hst. rewrite Hcol. destruct (stage game); [reflexivity | congruence].
  - intros Hst Hlt. rewrite Hcol, Hst.
    destruct (amountWon game - bet game) eqn:Hd; try lia; reflexivity.
  - intros Hst Hgt. rewrite Hcol, Hst.
    destruct (amountWon game - bet game) eqn:Hd; try lia; reflexivity.
  - intros Hst Heq. rewrite Hcol, Hst.
    destruct (amountWon game - bet game) eqn:Hd; try lia; reflexivity.
  - intros other Hst Hsgn. rewrite !Hcol, Hst, Hsgn. reflexivity.
Qed.

End Helpers.

(** ** The command against any engine *)

Section AnyEngine.

Context {R : Type} {engine : Engine R}.
Variable getEmojiByName : string -> string.

(** *** The game loop *)

Lemma turn_notSettlement player period :
  emitsOnly notSettlement (turn player period).
Proof.
  unfold turn, handlePlayerAction, performActionFromReaction, editWithGame. calls.
Qed.

Lemma playTurns_notSettlement turns :
  forall player game, emitsOnly notSettlement (playTurns player turns game).
Proof.
  induction turns as [| period rest IH]; intros player game; simpl;
    destruct (inPlay game);
    try apply emitsOnly_ret; try apply turn_notSettlement.
  apply emitsOnly_bind; [apply turn_notSettlement | intros g; apply IH].
Qed.

(** With no recorded waiting period the iteration stops at its collector. *)
Lemma turn_pending player (r : R) :
  turn player None r = (Awaiting, r, [AwaitReactions oneMinute]).
Proof. reflexivity. Qed.

(** The loop is left only with no game or with a game that is DONE. *)
Lemma playTurns_exit turns :
  forall player game r game' r' log,
    playTurns player turns game r = (Done game', r', log) -> inPlay game' = false.
Proof.
  induction turns as [| period rest IH]; intros player game r game' r' log; simpl;
    rewrite ?turn_pending;
    destruct (inPlay game) eqn:Hplay; try discriminate;
    try (intros [= <- _ _]; exact Hplay).
  unfold bind.
  destruct (turn player (Some period) r) as [[[g1 | e |] r1] l1]; try discriminate.
  destruct (playTurns player rest g1 r1) as [[s2 r2] l2] eqn:Hrest.
  intros [= -> -> _]. eapply IH, Hrest.
Qed.

Lemma playTurns_over player turns game (r : R) :
  inPlay game = false -> playTurns player turns game r = (Done game, r, []).
Proof. intros Hplay. destruct turns; simpl; now rewrite Hplay. Qed.

(** A waiting period in which no reaction passes the filter. *)
Lemma turn_timeout player period (r : R) :
  Forall (fun ru => reactFilter (fst ru) (snd ru) player = false) (reactions period) ->
  turn player (Some period) r =
    match performGameAction player QUIT r with
    | (Returns answer, r') =>
        (Done (setStage DONE <$> answer), r',
         [ AwaitReactions oneMinute; PerformGameAction player QUIT;
           MessageReply "you didn't act within the time limit, please start another game!" ])
    | (Throws e, r') =>
        (Raised e, r', [ AwaitReactions oneMinute; PerformGameAction player QUIT ])
    end.
Proof.
  intros Hnone.
  unfold turn, try_catch, bind, handlePlayerAction, awaitReactions. simpl.
  rewrite (filter_none _ _ Hnone). simpl.
  unfold call_performGameAction.
  destruct (performGameAction player QUIT r) as [[answer | e] r']; reflexivity.
Qed.

(** A null from [handlePlayerAction] is read as [game.stage] inside the
    [try]; the handler written for the time limit then runs. *)
Lemma turn_null_answer player period (r r1 : R) l1 :
  handlePlayerAction player period r = (Done None, r1, l1) ->
  turn player period r =
    match performGameAction player QUIT r1 with
    | (Returns answer, r2) =>
        (Done (setStage DONE <$> answer), r2,
         l1 ++ [ PerformGameAction player QUIT;
                 MessageReply "you didn't act within the time limit, please start another game!" ])
    | (Throws e, r2) =>
        (Raised e, r2, l1 ++ [ PerformGameAction player QUIT ])
    end.
Proof.
  intros Hnull. unfold turn, try_catch. unfold bind at 1. rewrite Hnull.
  simpl. rewrite app_nil_r. unfold bind, call_performGameAction.
  destruct (performGameAction player QUIT r1) as [[answer | e] r2]; reflexivity.
Qed.

(** C2: when no reaction that passes the filter arrives within the 60000 ms
    of the collector, the loop submits QUIT for the player and nothing else:
    the calls of that iteration are the collector, performGameAction(player,
    QUIT) and the reply, and the loop ends there, whatever else is recorded. *)
Theorem timeout_submits_quit_only player period rest game (r : R) :
  inPlay game = true ->
  Forall (fun ru => reactFilter (fst ru) (snd ru) player = false) (reactions period) ->
  time oneMinute = 60000 /\
  playTurns player (period :: rest) game r =
    match performGameAction player QUIT r with
    | (Returns answer, r') =>
        (Done (setStage DONE <$> answer), r',
         [ AwaitReactions oneMinute; PerformGameAction player QUIT;
           MessageReply "you didn't act within the time limit, please start another game!" ])
    | (Throws e, r') =>
        (Raised e, r', [ AwaitReactions oneMinute; PerformGameAction player QUIT ])
    end.
Proof.
  intros Hplay Hnone. split; [reflexivity |].
  simpl. rewrite Hplay. unfold bind. rewrite (turn_timeout _ _ _ Hnone).
  destruct (performGameAction player QUIT r) as [[answer | e] r']; [| reflexivity].
  rewrite (playTurns_over _ _ _ _ (inPlay_setStage_DONE answer)).
  reflexivity.
Qed.

(** C8: the filter accepts exactly the three emojis from the player of the
    game; the first collected reaction is removed and mapped to STAND, HIT
    or QUIT, the only calls of performGameAction; any other name, a null
    name and an empty collection give null without a call to the engine.
    When Discord rejects the removal, the method throws before its switch
    and submits nothing. *)
Theorem reactions_map_to_actions (player : string) (r : R) :
  (forall reaction user authorId,
     reactFilter reaction user authorId = true <->
     (emoji_name reaction = Some "🇸" \/ emoji_name reaction = Some "🇭" \/
      emoji_name reaction = Some "🇶") /\ id user = authorId) /\
  (forall re rest,
     emoji_name re = Some "🇸" ->
     performActionFromReaction (re :: rest) player false r =
       (ofOutcome (fst (performGameAction player STAND r)),
        snd (performGameAction player STAND r),
        [ReactionUsersRemove re player; PerformGameAction player STAND])) /\
  (forall re rest,
     emoji_name re = Some "🇭" ->
     performActionFromReaction (re :: rest) player false r =
       (ofOutcome (fst (performGameAction player HIT r)),
        snd (performGameAction player HIT r),
        [ReactionUsersRemove re player; PerformGameAction player HIT])) /\
  (forall re rest,
     emoji_name re = Some "🇶" ->
     performActionFromReaction (re :: rest) player false r =
       (ofOutcome (fst (performGameAction player QUIT r)),
        snd (performGameAction player QUIT r),
        [ReactionUsersRemove re player; PerformGameAction player QUIT])) /\
  (forall re rest,
     emoji_name re <> Some "🇸" -> emoji_name re <> Some "🇭" ->
     emoji_name re <> Some "🇶" ->
     performActionFromReaction (re :: rest) player false r =
       (Done None, r, [ReactionUsersRemove re player])) /\
  (forall rejected,
     performActionFromReaction [] player rejected r = (Done None, r, [])) /\
  (forall re rest,
     performActionFromReaction (re :: rest) player true r =
       (Raised DiscordAPIError, r, [ReactionUsersRemove re player])).
Proof.
  split; [apply reactFilter_true_iff |].
  split; [| split; [| split; [| split; [| split]]]].
  - intros re rest Hname.
    unfold performActionFromReaction, bind, call_performGameAction. simpl.
    rewrite Hname. simpl.
    destruct (performGameAction player STAND r) as [o r']. reflexivity.
  - intros re rest Hname.
    unfold performActionFromReaction, bind, call_performGameAction. simpl.
    rewrite Hname. simpl.
    destruct (performGameAction player HIT r) as [o r']. reflexivity.
  - intros re rest Hname.
    unfold performActionFromReaction, bind, call_performGameAction. simpl.
    rewrite Hname. simpl.
    destruct (performGameAction player QUIT r) as [o r']. reflexivity.
  - intros re rest Hs Hh Hq.
    unfold performActionFromReaction, bind. simpl.
    destruct (emoji_name re) as [name |]; simpl; [| reflexivity].
    destruct (String.eqb_spec name "🇸") as [-> | _]; [congruence |].
    destruct (String.eqb_spec name "🇭") as [-> | _]; [congruence |].
    destruct (String.eqb_spec name "🇶") as [-> | _]; [congruence |].
    reflexivity.
  - intros rejected. reflexivity.
  - intros re rest. reflexivity.
Qed.

(** *** Settlement *)

Lemma settlesOnce_prefix {A} player (s : Step (option A)) (r : R) l1 l2 :
  Forall notSettlement l1 -> settlesOnce player (s, r, l2) ->
  settlesOnce player (s, r, l1 ++ l2).
Proof.
  intros H1 H2. destruct s as [[a |] | e |]; simpl in *;
    try (apply Forall_app; split; assumption).
  destruct H2 as (game & pre & Hst & Hpre & ->).
  exists game, (l1 ++ pre). repeat split; [exact Hst | | now rewrite app_assoc].
  apply Forall_app; split; assumption.
Qed.

Lemma settlesOnce_bind {A B} player (m : M R A) (k : A -> M R (option B)) (r : R) :
  emitsOnly notSettlement m ->
  (forall a r1 l1, m r = (Done a, r1, l1) -> settlesOnce player (k a r1)) ->
  settlesOnce player (bind m k r).
Proof.
  intros Hm Hk. unfold bind. specialize (Hm r).
  destruct (m r) as [[[a | e |] r1] l1] eqn:Hrun; simpl in Hm; try exact Hm.
  specialize (Hk a r1 l1 eq_refl).
  destruct (k a r1) as [[s r2] l2]. now apply settlesOnce_prefix.
Qed.

(** The engine's [endGame] and the balance adjustment are called together,
    last, and only for a game that left the loop non-null and DONE. *)
Lemma messageRunBody_settlesOnce message args coins turns r :
  settlesOnce (id (author message))
    (messageRunBody getEmojiByName message args coins turns r).
Proof.
  unfold messageRunBody.
  apply settlesOnce_bind; [calls | intros amount r1 l1 _].
  apply settlesOnce_bind; [calls | intros _ r2 l2 _].
  apply settlesOnce_bind; [calls | intros playerBalance r3 l3 _].
  apply settlesOnce_bind; [calls | intros _ r4 l4 _].
  apply settlesOnce_bind; [calls | intros [g |] r5 l5 _]; [| constructor].
  apply settlesOnce_bind; [calls | intros _ r6 l6 _].
  apply settlesOnce_bind; [calls | intros _ r7 l7 _].
  apply settlesOnce_bind; [apply playTurns_notSettlement | intros [g' |] r8 l8 Hloop];
    [| constructor].
  apply playTurns_exit, inPlay_false_Some in Hloop.
  exists g', []. repeat split; [exact Hloop | constructor].
Qed.

(** *** Before the game starts *)

Lemma requestedBet_resolves args amount :
  requestedBet args = Some amount ->
  (if finished args then ret (R:=R) DEFAULT_BET
   else match rest_integer args with
        | Some n => ret n
        | None => raise (CodeyUserError "please enter a valid bet amount.")
        end) = ret amount.
Proof.
  unfold requestedBet. destruct (finished args); [now intros [= <-] |].
  now intros ->.
Qed.

(** The run of a request whose bet is out of bounds. *)
Lemma messageRunBody_invalid_bet message args coins turns amount (r : R) :
  requestedBet args = Some amount ->
  validateBetAmount amount <> "" ->
  messageRunBody getEmojiByName message args coins turns r =
    (Raised (CodeyUserError (validateBetAmount amount)), r, []).
Proof.
  intros Hbet Herr. unfold messageRunBody.
  rewrite (requestedBet_resolves _ _ Hbet).
  apply truthy_nonempty in Herr.
  unfold bind at 1. unfold ret at 1. unfold bind at 1. rewrite Herr. reflexivity.
Qed.

(** The run of a request whose bet is within bounds. *)
Lemma messageRunBody_valid_bet message args coins turns amount (r : R) :
  requestedBet args = Some amount ->
  validateBetAmount amount = "" ->
  messageRunBody getEmojiByName message args coins turns r =
    if coins (id (author message)) <? amount
    then (Raised (CodeyUserError
                    ("you don't have enough coins to place that bet. "
                       +:+ getEmojiByName "codey_sad")),
          r, [GetCoinBalanceByUserId (id (author message))])
    else
      match startGame amount (id (author message)) (channel_id message) r with
      | (Throws e, r1) =>
          (Raised e, r1,
           [ GetCoinBalanceByUserId (id (author message));
             StartGame amount (id (author message)) (channel_id message) ])
      | (Returns None, r1) =>
          (Raised (CodeyUserError
                     "please finish your current game before starting another one!"),
           r1,
           [ GetCoinBalanceByUserId (id (author message));
             StartGame amount (id (author message)) (channel_id message) ])
      | (Returns (Some g), r1) =>
          (fst (fst (afterStart message turns g r1)),
           snd (fst (afterStart message turns g r1)),
           GetCoinBalanceByUserId (id (author message))
             :: StartGame amount (id (author message)) (channel_id message)
             :: snd (afterStart message turns g r1))
      end.
Proof.
  intros Hbet Hok. unfold messageRunBody.
  rewrite (requestedBet_resolves _ _ Hbet).
  unfold bind at 1. unfold ret at 1. unfold bind at 1.
  rewrite (truthy_false_empty _ Hok). unfold ret at 1.
  unfold bind at 1. unfold getCoinBalanceByUserId at 1.
  unfold bind at 1.
  destruct (coins (id (author message)) <? amount); [reflexivity |].
  unfold ret at 1. unfold bind at 1. unfold call_startGame at 1.
  destruct (startGame amount (id (author message)) (channel_id message) r)
    as [[[g |] | e] r1]; try reflexivity.
  cbv beta iota zeta delta [ofOutcome].
  fold (afterStart message turns g).
  destruct (afterStart message turns g r1) as [[s r2] l2].
  reflexivity.
Qed.

Lemma messageRun_of_body message args coins turns (r : R) :
  messageRun getEmojiByName message args coins turns r =
    match messageRunBody getEmojiByName message args coins turns r with
    | (Raised (CodeyUserError text), r1, l1) => (Done None, r1, l1 ++ [SendToUser text])
    | (Raised _, r1, l1) => (Done None, r1, l1)
    | other => other
    end.
Proof.
  unfold messageRun, try_catch.
  destruct (messageRunBody getEmojiByName message args coins turns r)
    as [[[a | e |] r1] l1]; try reflexivity.
  destruct e; simpl; now rewrite ?app_nil_r.
Qed.

(** A request whose bet is out of bounds is answered with the error text. *)
Lemma invalid_bet_reported message args coins turns amount (r : R) :
  requestedBet args = Some amount ->
  validateBetAmount amount <> "" ->
  messageRun getEmojiByName message args coins turns r =
    (Done None, r, [SendToUser (validateBetAmount amount)]).
Proof.
  intros Hbet Herr.
  rewrite messageRun_of_body,
    (messageRunBody_invalid_bet message args coins turns amount r Hbet Herr).
  reflexivity.
Qed.

(** C3: validateBetAmount returns a non-empty string exactly for an amount
    below 10 or above 1000000; a request whose bet gets a non-empty string
    raises a user error with that string, which is sent to the user, and
    issues no other call: startGame is not invoked and the engine is left as
    it was. *)
Theorem bet_bounds_checked_before_startGame message args coins turns (r : R) :
  (forall amount,
     validateBetAmount amount <> "" <-> amount < 10 \/ amount > 1000000) /\
  (forall amount,
     requestedBet args = Some amount ->
     validateBetAmount amount <> "" ->
     messageRunBody getEmojiByName message args coins turns r =
       (Raised (CodeyUserError (validateBetAmount amount)), r, []) /\
     messageRun getEmojiByName message args coins turns r =
       (Done None, r, [SendToUser (validateBetAmount amount)])).
Proof.
  split; [apply validateBetAmount_error_iff |].
  intros amount Hbet Herr.
  pose proof (messageRunBody_invalid_bet message args coins turns amount r Hbet Herr)
    as Hbody.
  split; [exact Hbody |].
  now apply invalid_bet_reported.
Qed.

(** C5: when the balance of the player is strictly below the bet, the
    request raises a user error, sent to the user, and the calls made before
    it contain no call to the engine: startGame is never invoked and the
    engine is left as it was.  For a bet within bounds the only call before
    the error is the read of the balance, and the error is the
    not-enough-coins one. *)
Theorem insufficient_balance_stops_before_engine message args coins turns (r : R)
    (amount : Z) :
  requestedBet args = Some amount ->
  coins (id (author message)) < amount ->
  exists text log,
    messageRunBody getEmojiByName message args coins turns r =
      (Raised (CodeyUserError text), r, log) /\
    Forall notEngineCall log /\
    messageRun getEmojiByName message args coins turns r =
      (Done None, r, log ++ [SendToUser text]) /\
    (validateBetAmount amount = "" ->
       log = [GetCoinBalanceByUserId (id (author message))] /\
       text = "you don't have enough coins to place that bet. "
                +:+ getEmojiByName "codey_sad").
Proof.
  intros Hbet Hlow.
  destruct (validateBetAmount_cases amount) as [[Hb Hv] | [[Hb Hv] | [Hb Hv]]].
  - assert (Herr : validateBetAmount amount <> "") by (rewrite Hv; discriminate).
    pose proof (messageRunBody_invalid_bet message args coins turns amount r Hbet Herr)
      as Hbody.
    exists (validateBetAmount amount), []. repeat split.
    + exact Hbody.
    + constructor.
    + rewrite messageRun_of_body, Hbody. reflexivity.
    + now contradiction Herr.
    + now contradiction Herr.
  - assert (Herr : validateBetAmount amount <> "") by (rewrite Hv; discriminate).
    pose proof (messageRunBody_invalid_bet message args coins turns amount r Hbet Herr)
      as Hbody.
    exists (validateBetAmount amount), []. repeat split.
    + exact Hbody.
    + constructor.
    + rewrite messageRun_of_body, Hbody. reflexivity.
    + now contradiction Herr.
    + now contradiction Herr.
  - pose proof (messageRunBody_valid_bet message args coins turns amount r Hbet Hv)
      as Hbody.
    apply Z.ltb_lt in Hlow. rewrite Hlow in Hbody.
    eexists _, _. repeat split.
    + exact Hbody.
    + repeat constructor.
    + rewrite messageRun_of_body, Hbody. reflexivity.
Qed.

(** C10: a request with no argument bets DEFAULT_BET = 10 = MIN_BET, for
    which validateBetAmount returns the empty string; its run goes on to the
    balance check: its first call reads the balance of the author, and with
    at least 10 coins the next call is startGame with a bet of 10. *)
Theorem default_bet_passes_validation message args coins turns (r : R) :
  finished args = true ->
  DEFAULT_BET = 10 /\ DEFAULT_BET = MIN_BET /\
  validateBetAmount DEFAULT_BET = "" /\
  exists s r' tail,
    messageRun getEmojiByName message args coins turns r =
      (s, r', GetCoinBalanceByUserId (id (author message)) :: tail) /\
    (10 <= coins (id (author message)) ->
     exists tail',
       tail = StartGame 10 (id (author message)) (channel_id message) :: tail').
Proof.
  intros Hfin. repeat split.
  assert (Hbet : requestedBet args = Some 10)
    by (unfold requestedBet; now rewrite Hfin).
  pose proof (messageRunBody_valid_bet message args coins turns 10 r Hbet eq_refl)
    as Hbody.
  rewrite messageRun_of_body, Hbody.
  destruct (Z.ltb_spec (coins (id (author message))) 10) as [Hlow | Hok].
  - eexists _, _, _. split; [reflexivity | lia].
  - destruct (startGame 10 (id (author message)) (channel_id message) r)
      as [[[g |] | e] r1].
    + destruct (afterStart message turns g r1) as [[[a | e |] r2] l2]; simpl.
      * eexists _, _, _. split; [reflexivity | eauto].
      * destruct e; eexists _, _, _; (split; [reflexivity | eauto]).
      * eexists _, _, _. split; [reflexivity | eauto].
    + eexists _, _, _. split; [reflexivity | eauto].
    + destruct e; eexists _, _, _; (split; [reflexivity | eauto]).
Qed.

(** A request for which the engine's startGame answers null. *)
Lemma startGame_null_reported message args coins turns amount (r r1 : R) :
  requestedBet args = Some amount ->
  validateBetAmount amount = "" ->
  amount <= coins (id (author message)) ->
  startGame amount (id (author message)) (channel_id message) r = (Returns None, r1) ->
  messageRun getEmojiByName message args coins turns r =
    (Done None, r1,
     [ GetCoinBalanceByUserId (id (author message));
       StartGame amount (id (author message)) (channel_id message);
       SendToUser "please finish your current game before starting another one!" ]).
Proof.
  intros Hbet Hok Hcoins Hnull.
  rewrite messageRun_of_body,
    (messageRunBody_valid_bet message args coins turns amount r Hbet Hok), Hnull.
  destruct (Z.ltb_spec (coins (id (author message))) amount); [lia | reflexivity].
Qed.

(** A request whose argument is not an integer. *)
Lemma no_bet_reported message args coins turns (r : R) :
  requestedBet args = None ->
  messageRun getEmojiByName message args coins turns r =
    (Done None, r, [SendToUser "please enter a valid bet amount."]).
Proof.
  unfold requestedBet. intros Hbet.
  destruct (finished args) eqn:Hfin; [discriminate |].
  rewrite messageRun_of_body. unfold messageRunBody.
  rewrite Hfin, Hbet. reflexivity.
Qed.

(** The three shapes of the body of a request, by its bet. *)
Lemma body_cases message args coins turns (r : R) :
  (requestedBet args = None /\
   messageRunBody getEmojiByName message args coins turns r =
     (Raised (CodeyUserError "please enter a valid bet amount."), r, [])) \/
  (exists amount,
     requestedBet args = Some amount /\ validateBetAmount amount <> "" /\
     messageRunBody getEmojiByName message args coins turns r =
       (Raised (CodeyUserError (validateBetAmount amount)), r, [])) \/
  (exists amount,
     requestedBet args = Some amount /\ 10 <= amount <= 1000000 /\
     coins (id (author message)) < amount /\
     messageRunBody getEmojiByName message args coins turns r =
       (Raised (CodeyUserError
                  ("you don't have enough coins to place that bet. "
                     +:+ getEmojiByName "codey_sad")),
        r, [GetCoinBalanceByUserId (id (author message))])) \/
  (exists amount,
     requestedBet args = Some amount /\ 10 <= amount <= 1000000 /\
     amount <= coins (id (author message)) /\
     messageRunBody getEmojiByName message args coins turns r =
       match startGame amount (id (author message)) (channel_id message) r with
       | (Throws e, r1) =>
           (Raised e, r1,
            [ GetCoinBalanceByUserId (id (author message));
              StartGame amount (id (author message)) (channel_id message) ])
       | (Returns None, r1) =>
           (Raised (CodeyUserError
                      "please finish your current game before starting another one!"),
            r1,
            [ GetCoinBalanceByUserId (id (author message));
              StartGame amount (id (author message)) (channel_id message) ])
       | (Returns (Some g), r1) =>
           (fst (fst (afterStart message turns g r1)),
            snd (fst (afterStart message turns g r1)),
            GetCoinBalanceByUserId (id (author message))
              :: StartGame amount (id (author message)) (channel_id message)
              :: snd (afterStart message turns g r1))
       end).
Proof.
  destruct (requestedBet args) as [amount |] eqn:Hbet.
  - destruct (validateBetAmount_cases amount) as [[Hb Hv] | [[Hb Hv] | [Hb Hv]]].
    + right; left. exists amount.
      assert (Herr : validateBetAmount amount <> "") by (rewrite Hv; discriminate).
      repeat split; auto. now apply messageRunBody_invalid_bet.
    + right; left. exists amount.
      assert (Herr : validateBetAmount amount <> "") by (rewrite Hv; discriminate).
      repeat split; auto. now apply messageRunBody_invalid_bet.
    + pose proof (messageRunBody_valid_bet message args coins turns
                    amount r Hbet Hv) as Hbody.
      destruct (Z.ltb_spec (coins (id (author message))) amount) as [Hlow | Hcov].
      * right; right; left. exists amount. repeat split; auto; lia.
      * right; right; right. exists amount. repeat split; auto; lia.
  - left. split; [reflexivity |].
    unfold requestedBet in Hbet.
    destruct (finished args) eqn:Hfin; [discriminate |].
    unfold messageRunBody. rewrite Hfin, Hbet. reflexivity.
Qed.


(** What follows the start of a game, by the way its loop ends. *)
Lemma afterStart_by_loop message turns (g : GameState) (r1 : R) :
  afterStart message turns g r1 =
    match playTurns (id (author message)) turns (Some g) r1 with
    | (Done (Some final), r2, l) =>
        (Done (Some tt), BlackjackEngine.endGame (id (author message)) r2,
         shownAtStart g ++ l ++ settlementCalls (id (author message)) final)
    | (Done None, r2, l) => (Done None, r2, shownAtStart g ++ l)
    | (Raised e, r2, l) => (Raised e, r2, shownAtStart g ++ l)
    | (Awaiting, r2, l) => (Awaiting, r2, shownAtStart g ++ l)
    end.
Proof.
  unfold afterStart, shownAtStart.
  unfold bind at 1. unfold emit at 1. unfold bind at 1.
  assert (Hoffer :
            (if negb (bool_decide (stage g = DONE))
             then bind (emit (MsgReact "🇭"))
                    (fun _ => bind (emit (MsgReact "🇸")) (fun _ => emit (MsgReact "🇶")))
             else ret tt) r1 =
            (Done tt, r1,
             if bool_decide (stage g = DONE) then []
             else [MsgReact "🇭"; MsgReact "🇸"; MsgReact "🇶"])).
  { destruct (bool_decide (stage g = DONE)); reflexivity. }
  rewrite Hoffer. unfold bind at 1.
  destruct (playTurns (id (author message)) turns (Some g) r1)
    as [[[[final |] | e |] r2] l]; try reflexivity.
  unfold bind, emit, endGame, call_endGame, ret, settlementCalls, getBalanceChange.
  simpl. now rewrite app_nil_r.
Qed.

(** The run of a request whose game starts, by the way its loop ends. *)
Lemma run_by_loop message args coins turns (amount : Z) (g : GameState) (r r1 : R) :
  requestedBet args = Some amount ->
  validateBetAmount amount = "" ->
  amount <= coins (id (author message)) ->
  startGame amount (id (author message)) (channel_id message) r = (Returns (Some g), r1) ->
  messageRun getEmojiByName message args coins turns r =
    match playTurns (id (author message)) turns (Some g) r1 with
    | (Done (Some final), r2, l) =>
        (Done (Some tt), BlackjackEngine.endGame (id (author message)) r2,
         [ GetCoinBalanceByUserId (id (author message));
           StartGame amount (id (author message)) (channel_id message) ]
           ++ shownAtStart g ++ l ++ settlementCalls (id (author message)) final)
    | (Raised (CodeyUserError text), r2, l) =>
        (Done None, r2,
         [ GetCoinBalanceByUserId (id (author message));
           StartGame amount (id (author message)) (channel_id message) ]
           ++ shownAtStart g ++ l ++ [SendToUser text])
    | (Done None, r2, l) | (Raised _, r2, l) =>
        (Done None, r2,
         [ GetCoinBalanceByUserId (id (author message));
           StartGame amount (id (author message)) (channel_id message) ]
           ++ shownAtStart g ++ l)
    | (Awaiting, r2, l) =>
        (Awaiting, r2,
         [ GetCoinBalanceByUserId (id (author message));
           StartGame amount (id (author message)) (channel_id message) ]
           ++ shownAtStart g ++ l)
    end.
Proof.
  intros Hbet Hok Hcov Hstart.
  rewrite messageRun_of_body,
    (messageRunBody_valid_bet message args coins turns amount r Hbet Hok), Hstart.
  destruct (Z.ltb_spec (coins (id (author message))) amount) as [Hlow | _]; [lia |].
  rewrite afterStart_by_loop.
  destruct (playTurns (id (author message)) turns (Some g) r1)
    as [[[[final |] | e |] r2] l]; try reflexivity.
  destruct e; simpl; rewrite ?app_nil_r, <- ?app_assoc; reflexivity.
Qed.

End AnyEngine.

(** ** The command against the engine of the specification *)

Section WithSpecEngine.

Variable newShuffledDeck : nat -> list Card.
Variable getEmojiByName : string -> string.

Local Abbreviation engine := (SpecEngine.specEngine newShuffledDeck).

(** C4: when the registry holds a game for the player, startGame returns
    null, without throwing and without touching the registry; the request
    then ends with no game loop and no settlement (none of its calls belongs
    to the game), the registry unchanged; with a bet within bounds that the
    balance covers, its calls are the balance read, startGame and the
    message asking to finish the current game. *)
Theorem active_game_rejected message args coins turns (reg : SpecEngine.Registry)
    (current : GameState) :
  SpecEngine.gamesByPlayerId reg !! id (author message) = Some current ->
  (forall amount channel,
     SpecEngine.startGame newShuffledDeck amount (id (author message)) channel reg =
       (Returns None, reg)) /\
  exists log,
    messageRun (engine := engine) getEmojiByName message args coins turns reg =
      (Done None, reg, log) /\
    Forall notGameCall log /\
    (forall amount,
       requestedBet args = Some amount ->
       validateBetAmount amount = "" ->
       amount <= coins (id (author message)) ->
       log = [ GetCoinBalanceByUserId (id (author message));
               StartGame amount (id (author message)) (channel_id message);
               SendToUser "please finish your current game before starting another one!" ]).
Proof.
  intros Hactive.
  assert (Hnull : forall amount channel,
             SpecEngine.startGame newShuffledDeck amount (id (author message)) channel reg =
               (Returns None, reg)).
  { intros amount channel. unfold SpecEngine.startGame. now rewrite Hactive. }
  split; [exact Hnull |].
  destruct (requestedBet args) as [amount |] eqn:Hbet.
  - destruct (validateBetAmount_cases amount) as [[Hb Hv] | [[Hb Hv] | [Hb Hv]]].
    + assert (Herr : validateBetAmount amount <> "") by (rewrite Hv; discriminate).
      exists [SendToUser (validateBetAmount amount)]. repeat split.
      * now apply (invalid_bet_reported (engine := engine)).
      * repeat constructor.
      * intros amount' [= <-] Hok. now contradiction Herr.
    + assert (Herr : validateBetAmount amount <> "") by (rewrite Hv; discriminate).
      exists [SendToUser (validateBetAmount amount)]. repeat split.
      * now apply (invalid_bet_reported (engine := engine)).
      * repeat constructor.
      * intros amount' [= <-] Hok. now contradiction Herr.
    + destruct (Z.ltb_spec (coins (id (author message))) amount) as [Hlow | Hcov].
      * eexists. repeat split.
        -- rewrite messageRun_of_body,
             (messageRunBody_valid_bet (engine := engine) _ _ _ _ _ _ _ Hbet Hv).
           apply Z.ltb_lt in Hlow. rewrite Hlow. reflexivity.
        -- repeat constructor.
        -- intros amount' [= <-] _ Hcov. lia.
      * eexists. repeat split.
        -- apply (startGame_null_reported (engine := engine) _ _ _ _ _ _ _ _ Hbet Hv Hcov).
           apply Hnull.
        -- repeat constructor.
        -- now intros amount' [= <-] _ _.
  - exists [SendToUser "please enter a valid bet amount."]. repeat split.
    + now apply (no_bet_reported (engine := engine)).
    + repeat constructor.
    + discriminate.
Qed.

(** C7: for a registered game in progress, QUIT returns a state with
    surrendered = true, amountWon = 0 and stage DONE, whatever the hands
    are, which stay as they were; the returned state is DONE as it is:
    setting its stage to DONE changes nothing. *)
Theorem quit_surrenders_the_bet (player : string) (reg : SpecEngine.Registry)
    (game : GameState) :
  SpecEngine.gamesByPlayerId reg !! player = Some game ->
  stage game = IN_PROGRESS ->
  exists after,
    SpecEngine.performGameAction player QUIT reg =
      (Returns (Some after),
       {| SpecEngine.gamesByPlayerId := <[player := after]> (SpecEngine.gamesByPlayerId reg);
          SpecEngine.shuffles := SpecEngine.shuffles reg |}) /\
    surrendered after = true /\ amountWon after = 0 /\ stage after = DONE /\
    setStage DONE after = after /\
    playerCards after = playerCards game /\ dealerCards after = dealerCards game /\
    bet after = bet game.
Proof.
  intros Hgame Hstage. unfold SpecEngine.performGameAction.
  rewrite Hgame, Hstage. simpl.
  eexists. split; [reflexivity |]. repeat split.
Qed.

End WithSpecEngine.

(** ** The engine of the specification on the hands of its section 8 *)

Section SpecEngineHands.
Import Samples SpecEngine.

Lemma handValues_nonempty (hand : BlackjackHand) : handValues hand <> [].
Proof. unfold handValues. destruct (hasAce hand && _); discriminate. Qed.

Lemma bestTotal_in_handValues (hand : BlackjackHand) :
  bestTotal hand ∈ handValues hand.
Proof.
  unfold bestTotal, handValues.
  destruct (hasAce hand && _); [right; left | left].
Qed.

Lemma isBust_iff_hard_total (hand : BlackjackHand) :
  isBust hand = true <-> 21 < hardTotal hand.
Proof.
  unfold isBust, handValues.
  destruct (hasAce hand) eqn:Hace; simpl.
  - destruct (Z.leb_spec (hardTotal hand + 10) 21) as [Hsoft | Hsoft]; simpl.
    + rewrite !andb_true_r, andb_true_iff, !Z.ltb_lt. lia.
    + rewrite andb_true_r, Z.ltb_lt. lia.
  - rewrite andb_true_r, Z.ltb_lt. lia.
Qed.

(** Property 5: on 20 against 6 and 5, a dealer who draws to 21 wins and a
    dealer who busts pays twice the bet. *)
Lemma stand_against_eleven :
  applyAction STAND dealt = Returns lost /\
  match applyAction STAND
          (withOutcome dealt [card Five HEARTS; card King CLUBS]
             (playerCards dealt) (dealerCards dealt) IN_PROGRESS false 0)
  with
  | Returns g => (stage g, bestTotal (dealerCards g), amountWon g) = (DONE, 26, 20)
  | Throws _ => False
  end.
Proof. split; reflexivity. Qed.

(** Property 7: two naturals at the deal are a push, with no action. *)
Lemma double_blackjack_is_a_push :
  fst (startGame
         (fun _ => [card Ace SPADES; card King HEARTS; card Ace CLUBS; card Queen DIAMONDS])
         10 "alice" "games" emptyRegistry) =
  Returns (Some {| playerId := "alice"; channelId := "games"; bet := 10; deck := [];
                   playerCards := [card Ace SPADES; card King HEARTS];
                   dealerCards := [card Ace CLUBS; card Queen DIAMONDS];
                   stage := DONE; surrendered := false; amountWon := 10 |}).
Proof. reflexivity. Qed.

(** Property 8: after [endGame] the player can start again. *)
Lemma endGame_frees_the_player :
  fst (startGame stacked 10 "alice" "games" (endGame "alice" aliceAtTable)) =
  Returns (Some dealt).
Proof. reflexivity. Qed.

End SpecEngineHands.

(** ** Runs on recorded answers *)

Section Recorded.
Import Samples.

Local Abbreviation scripted := ScriptedEngine.scriptedEngine.

(** Answers that no engine with a registry gives, but that the type of the
    answers allows: null to a HIT and then a game to the QUIT the command
    submits from its catch handler.  The command tells the player that the
    time limit passed, calls endGame and takes the bet from the balance. *)
Lemma null_then_game_is_settled :
  messageRun (engine := scripted) emojiText request noArgs rich
    [period [reacts "🇭" alice]]
    [Returns (Some dealt); Returns None; Returns (Some gaveUp)] =
  (Done (Some tt), [],
   [ GetCoinBalanceByUserId "alice"; StartGame 10 "alice" "games";
     MessageReplyEmbed (getEmbedFromGame dealt);
     MsgReact "🇭"; MsgReact "🇸"; MsgReact "🇶";
     AwaitReactions oneMinute;
     ReactionUsersRemove {| emoji_name := Some "🇭" |} "alice";
     PerformGameAction "alice" HIT;
     PerformGameAction "alice" QUIT;
     MessageReply "you didn't act within the time limit, please start another game!";
     MsgEdit (getEmbedFromGame gaveUp);
     ReactionsRemoveAll; EndGame "alice";
     AdjustCoinBalanceByUserId "alice" (-10) Blackjack ]).
Proof. reflexivity. Qed.

(** The same request when the QUIT of the handler is answered null as well:
    the run ends with no settlement. *)
Lemma null_answers_leave_quietly :
  messageRun (engine := scripted) emojiText request noArgs rich
    [period [reacts "🇭" alice]]
    [Returns (Some dealt); Returns None; Returns None] =
  (Done None, [],
   [ GetCoinBalanceByUserId "alice"; StartGame 10 "alice" "games";
     MessageReplyEmbed (getEmbedFromGame dealt);
     MsgReact "🇭"; MsgReact "🇸"; MsgReact "🇶";
     AwaitReactions oneMinute;
     ReactionUsersRemove {| emoji_name := Some "🇭" |} "alice";
     PerformGameAction "alice" HIT;
     PerformGameAction "alice" QUIT;
     MessageReply "you didn't act within the time limit, please start another game!" ]).
Proof. reflexivity. Qed.

(** A whole game on the engine of the specification: alice stands on 20, the
    dealer draws a ten to 21, and alice loses her bet. *)
Lemma stand_on_twenty_loses_to_twenty_one :
  snd (messageRun (engine := SpecEngine.specEngine stacked) emojiText request
         (betOf 10) rich [period [reacts "🇸" bob; reacts "🇸" alice]] emptyRegistry) =
  [ GetCoinBalanceByUserId "alice"; StartGame 10 "alice" "games";
    MessageReplyEmbed (getEmbedFromGame dealt);
    MsgReact "🇭"; MsgReact "🇸"; MsgReact "🇶";
    AwaitReactions oneMinute;
    ReactionUsersRemove {| emoji_name := Some "🇸" |} "alice";
    PerformGameAction "alice" STAND;
    MsgEdit (getEmbedFromGame lost);
    MsgEdit (getEmbedFromGame lost);
    ReactionsRemoveAll; EndGame "alice";
    AdjustCoinBalanceByUserId "alice" (-10) Blackjack ].
Proof. reflexivity. Qed.

End Recorded.

(** ** The properties at concrete inputs *)

Section Instances.
Import Samples.

Local Abbreviation scripted := ScriptedEngine.scriptedEngine.
Local Abbreviation table := (SpecEngine.specEngine stacked).

Lemma timeout_submits_quit_only_witness :
  time oneMinute = 60000 /\
  playTurns (engine := table) "alice"
    [period [reacts "🇭" bob; reacts "👍" alice; ({| emoji_name := None |}, alice)];
     period [reacts "🇭" alice]]
    (Some dealt) aliceAtTable =
  (Done (Some gaveUp),
   snd (SpecEngine.performGameAction "alice" QUIT aliceAtTable),
   [ AwaitReactions oneMinute; PerformGameAction "alice" QUIT;
     MessageReply "you didn't act within the time limit, please start another game!" ]).
Proof.
  apply (timeout_submits_quit_only (engine := table) "alice"
           (period [reacts "🇭" bob; reacts "👍" alice; ({| emoji_name := None |}, alice)])
           [period [reacts "🇭" alice]] (Some dealt) aliceAtTable).
  - reflexivity.
  - repeat constructor.
Defined.

Lemma bet_bounds_checked_before_startGame_witness :
  requestedBet (betOf 5) = Some 5 /\
  messageRun (engine := table) emojiText request (betOf 5) rich [] emptyRegistry =
    (Done None, emptyRegistry, [SendToUser "minimum bet is 10 Codey coins."]).
Proof.
  split; [reflexivity |].
  apply (proj2 (bet_bounds_checked_before_startGame (engine := table)
                  emojiText request (betOf 5) rich [] emptyRegistry) 5).
  - reflexivity.
  - discriminate.
Defined.

Lemma insufficient_balance_stops_before_engine_witness :
  poor "alice" < 10 /\
  exists text log,
    messageRunBody (engine := table) emojiText request noArgs poor [] emptyRegistry =
      (Raised (CodeyUserError text), emptyRegistry, log) /\
    Forall notEngineCall log /\
    messageRun (engine := table) emojiText request noArgs poor [] emptyRegistry =
      (Done None, emptyRegistry, log ++ [SendToUser text]) /\
    (validateBetAmount 10 = "" ->
       log = [GetCoinBalanceByUserId "alice"] /\
       text = "you don't have enough coins to place that bet. " +:+ emojiText "codey_sad").
Proof.
  split; [reflexivity |].
  apply (insufficient_balance_stops_before_engine (engine := table)
           emojiText request noArgs poor [] emptyRegistry 10).
  - reflexivity.
  - reflexivity.
Defined.

Lemma reactions_map_to_actions_witness :
  reactFilter {| emoji_name := Some "🇸" |} alice "alice" = true /\
  performActionFromReaction (engine := table) [{| emoji_name := Some "🇸" |}] "alice"
    false aliceAtTable =
  (Done (Some lost), snd (SpecEngine.performGameAction "alice" STAND aliceAtTable),
   [ReactionUsersRemove {| emoji_name := Some "🇸" |} "alice";
    PerformGameAction "alice" STAND]).
Proof.
  pose proof (reactions_map_to_actions (engine := table) "alice" aliceAtTable)
    as (Hfilter & Hstand & _).
  split.
  - apply Hfilter. split; [left; reflexivity | reflexivity].
  - apply (Hstand {| emoji_name := Some "🇸" |} []). reflexivity.
Defined.

Lemma embed_colour_by_stage_and_sign_witness :
  getEmbedColourFromGame dealt = "Yellow" /\
  getEmbedColourFromGame lost = "Red" /\
  getEmbedColourFromGame won = "Green" /\
  getEmbedColourFromGame pushed = "Orange".
Proof.
  split; [| split; [| split]].
  - apply (proj1 (embed_colour_by_stage_and_sign dealt)). discriminate.
  - apply (proj1 (proj2 (embed_colour_by_stage_and_sign lost))); reflexivity.
  - apply (proj1 (proj2 (proj2 (embed_colour_by_stage_and_sign won)))); reflexivity.
  - apply (proj1 (proj2 (proj2 (proj2 (embed_colour_by_stage_and_sign pushed)))));
      reflexivity.
Defined.

Lemma default_bet_passes_validation_witness :
  exists s r' tail,
    messageRun (engine := table) emojiText request noArgs rich [] emptyRegistry =
      (s, r', GetCoinBalanceByUserId "alice" :: tail) /\
    (10 <= rich "alice" ->
     exists tail', tail = StartGame 10 "alice" "games" :: tail').
Proof.
  apply (default_bet_passes_validation (engine := table)
           emojiText request noArgs rich [] emptyRegistry).
  reflexivity.
Defined.

Lemma active_game_rejected_witness :
  SpecEngine.startGame stacked 10 "alice" "games" aliceAtTable =
    (Returns None, aliceAtTable) /\
  exists log,
    messageRun (engine := table) emojiText request noArgs rich
      [period [reacts "🇭" alice]] aliceAtTable = (Done None, aliceAtTable, log) /\
    Forall notGameCall log.
Proof.
  destruct (active_game_rejected stacked emojiText request noArgs rich
              [period [reacts "🇭" alice]] aliceAtTable dealt eq_refl)
    as (Hnull & log & Hrun & Hquiet & _).
  split; [apply (Hnull 10 "games") |].
  exists log. split; [exact Hrun | exact Hquiet].
Defined.

Lemma quit_surrenders_the_bet_witness :
  exists after,
    SpecEngine.performGameAction "alice" QUIT aliceAtTable =
      (Returns (Some after),
       {| SpecEngine.gamesByPlayerId :=
            <["alice" := after]> (SpecEngine.gamesByPlayerId aliceAtTable);
          SpecEngine.shuffles := SpecEngine.shuffles aliceAtTable |}) /\
    surrendered after = true /\ amountWon after = 0 /\ stage after = DONE /\
    setStage DONE after = after /\
    playerCards after = playerCards dealt /\ dealerCards after = dealerCards dealt /\
    bet after = bet dealt.
Proof.
  apply (quit_surrenders_the_bet "alice" aliceAtTable dealt); reflexivity.
Defined.

End Instances.

Section TurnOutcomes.

Context {R : Type} {engine : Engine R}.

(** An iteration of the loop ends in one of these ways: still waiting;
    QUIT submitted without any action before (time limit, rejected removal,
    a reaction with no action); or one action submitted for an accepted
    reaction and then either the game it answered, shown by an edit, or
    QUIT submitted after it (null or throwing answer, rejected edit). *)
Lemma turn_outcomes player period (r : R) :
  fst (turn player period r) = (Awaiting, r) \/
  fst (turn player period r) = fst (quitSubmitted player r []) \/
  exists action,
    fst (turn player period r) =
      fst (quitSubmitted player (snd (performGameAction player action r)) []) \/
    exists g,
      fst (performGameAction player action r) = Returns (Some g) /\
      fst (turn player period r) =
        (Done (Some g), snd (performGameAction player action r)).
Proof.
  unfold turn, try_catch, handlePlayerAction, awaitReactions, performActionFromReaction,
    editWithGame, quitSubmitted, bind, call_performGameAction, emit, ret, raise.
  destruct period as [period |]; simpl; [| left; reflexivity].
  right.
  destruct (List.filter _ (reactions period)) as [| [re u] passed]; simpl.
  { left. destruct (performGameAction player QUIT r) as [[? | ?] ?]; reflexivity. }
  destruct (removeRejected period); simpl.
  { left. destruct (performGameAction player QUIT r) as [[? | ?] ?]; reflexivity. }
  destruct (emoji_name re) as [name |]; simpl;
    [| left; destruct (performGameAction player QUIT r) as [[? | ?] ?]; reflexivity].
  assert (Hcase : String.eqb name "🇸" = true \/
                  (String.eqb name "🇸" = false /\ String.eqb name "🇭" = true) \/
                  (String.eqb name "🇸" = false /\ String.eqb name "🇭" = false /\
                   String.eqb name "🇶" = true) \/
                  (String.eqb name "🇸" = false /\ String.eqb name "🇭" = false /\
                   String.eqb name "🇶" = false)).
  { destruct (String.eqb name "🇸"); [auto |].
    destruct (String.eqb name "🇭"); [auto |].
    destruct (String.eqb name "🇶"); auto 10. }
  destruct Hcase as [-> | [[-> ->] | [(-> & -> & ->) | (-> & -> & ->)]]]; simpl.
  - right. exists STAND.
    destruct (performGameAction player STAND r) as [[[g |] | e] r1]; simpl;
      [destruct (editRejected period); simpl; [left | right; now exists g] | left | left];
      destruct (performGameAction player QUIT r1) as [[? | ?] ?]; reflexivity.
  - right. exists HIT.
    destruct (performGameAction player HIT r) as [[[g |] | e] r1]; simpl;
      [destruct (editRejected period); simpl; [left | right; now exists g] | left | left];
      destruct (performGameAction player QUIT r1) as [[? | ?] ?]; reflexivity.
  - right. exists QUIT.
    destruct (performGameAction player QUIT r) as [[[g |] | e] r1]; simpl;
      [destruct (editRejected period); simpl; [left | right; now exists g] | left | left];
      destruct (performGameAction player QUIT r1) as [[? | ?] ?]; reflexivity.
  - left. destruct (performGameAction player QUIT r) as [[? | ?] ?]; reflexivity.
Qed.

End TurnOutcomes.

(** ** The loop on a recording engine *)

Section Journalled.
Import Journal.

Context {R : Type} {engine : Engine R}.

Local Abbreviation recorded := (recording engine).

Lemma recorded_performGameAction player action (st : R * list Entry) :
  performGameAction (Engine := recorded) player action st =
    (fst (performGameAction player action (fst st)),
     (snd (performGameAction player action (fst st)),
      snd st ++ [(PerformGameAction player action,
                  fst (performGameAction player action (fst st)))])).
Proof.
  unfold performGameAction at 1. unfold recording.
  destruct (performGameAction player action (fst st)) as [o r']. reflexivity.
Qed.

Lemma recorded_quitSubmitted player (st : R * list Entry) :
  fst (quitSubmitted (engine := recorded) player st []) =
    (match fst (performGameAction player QUIT (fst st)) with
     | Returns answer => Done (setStage DONE <$> answer)
     | Throws e => Raised e
     end,
     (snd (performGameAction player QUIT (fst st)),
      snd st ++ [(PerformGameAction player QUIT,
                  fst (performGameAction player QUIT (fst st)))])).
Proof.
  unfold quitSubmitted. rewrite recorded_performGameAction.
  now destruct (fst (performGameAction player QUIT (fst st))).
Qed.

(** What an iteration adds to the journal, and its result: nothing, while
    waiting; the answer to QUIT, which gives the result; the answer to an
    action and then the answer to QUIT, which gives the result; or a game
    answered to an action, which is the result. *)
Lemma turn_journal player period (st : R * list Entry) :
  fst (turn (engine := recorded) player period st) = (Awaiting, st) \/
  (exists st1 action,
     (st1 = st \/
      st1 = (snd (performGameAction player action (fst st)),
             snd st ++ [(PerformGameAction player action,
                         fst (performGameAction player action (fst st)))])) /\
     fst (turn (engine := recorded) player period st) =
       (match fst (performGameAction player QUIT (fst st1)) with
        | Returns answer => Done (setStage DONE <$> answer)
        | Throws e => Raised e
        end,
        (snd (performGameAction player QUIT (fst st1)),
         snd st1 ++ [(PerformGameAction player QUIT,
                      fst (performGameAction player QUIT (fst st1)))]))) \/
  (exists action g,
     fst (performGameAction player action (fst st)) = Returns (Some g) /\
     fst (turn (engine := recorded) player period st) =
       (Done (Some g),
        (snd (performGameAction player action (fst st)),
         snd st ++ [(PerformGameAction player action, Returns (Some g))]))).
Proof.
  destruct (turn_outcomes (engine := recorded) player period st)
    as [-> | [-> | (action & [-> | (g & Hg & ->)])]].
  - now left.
  - right; left. exists st, QUIT. split; [now left |]. apply recorded_quitSubmitted.
  - right; left. rewrite recorded_quitSubmitted, recorded_performGameAction.
    eexists _, action. split; [right; reflexivity | reflexivity].
  - right; right. rewrite recorded_performGameAction in Hg |- *. simpl in Hg.
    exists action, g. split; [exact Hg |]. simpl. now rewrite Hg.
Qed.

(** The game an iteration ends with is, but for its stage, the last answer
    in the journal. *)
Lemma turn_last_answer player period (st st1 : R * list Entry) g1 l1 :
  turn (engine := recorded) player period st = (Done (Some g1), st1, l1) ->
  exists before call answered,
    snd st1 = before ++ [(call, Returns (Some answered))] /\
    (g1 = answered \/ g1 = setStage DONE answered).
Proof.
  intros Hturn.
  destruct (turn_journal player period st)
    as [H | [(st0 & action & _ & H) | (action & g & _ & H)]];
    rewrite Hturn in H; simpl in H.
  - discriminate.
  - injection H as Hres ->.
    destruct (fst (performGameAction player QUIT (fst st0))) as [[answered |] | e];
      try discriminate.
    injection Hres as ->. simpl. eauto 10.
  - injection H as -> ->. simpl. eauto 10.
Qed.

Lemma playTurns_last_answer player turns :
  forall game (st st' : R * list Entry) final l,
    playTurns (engine := recorded) player turns game st = (Done (Some final), st', l) ->
    (game = Some final /\ st' = st) \/
    exists before call answered,
      snd st' = before ++ [(call, Returns (Some answered))] /\
      (final = answered \/ final = setStage DONE answered).
Proof.
  induction turns as [| period rest IH]; intros game st st' final l; simpl;
    destruct (inPlay game) eqn:Hplay;
    try (intros [= <- <- _]; now left); try discriminate.
  unfold bind.
  destruct (turn (engine := recorded) player (Some period) st)
    as [[[g1 | e |] st1] l1] eqn:Hturn; try discriminate.
  destruct (playTurns (engine := recorded) player rest g1 st1) as [[s2 st2] l2] eqn:Hrest.
  intros [= -> -> _].
  destruct (IH _ _ _ _ _ Hrest) as [[-> ->] | Hlast]; [| now right].
  right. eapply turn_last_answer, Hturn.
Qed.

Lemma turn_null_ends player period (st : R * list Entry) :
  nullStays engine ->
  exists new,
    snd (snd (fst (turn (engine := recorded) player period st))) = snd st ++ new /\
    (Returns None ∈ actionAnswers new ->
     fst (fst (turn (engine := recorded) player period st)) = Done None).
Proof.
  intros Hstays.
  destruct (turn_journal player period st)
    as [-> | [(st0 & action & Hst0 & ->) | (action & g & _ & ->)]]; simpl.
  - exists []. split; [now rewrite app_nil_r | intros Hin; inversion Hin].
  - destruct Hst0 as [-> | ->]; simpl.
    + eexists [_]. split; [reflexivity |].
      intros Hin. cbn in Hin. apply list_elem_of_singleton in Hin. now rewrite <- Hin.
    + eexists [_; _]. split; [now rewrite <- app_assoc |].
      intros Hin. cbn in Hin.
      apply elem_of_cons in Hin as [Hin | Hin].
      * symmetry in Hin. now rewrite (Hstays _ _ _ Hin).
      * apply list_elem_of_singleton in Hin. now rewrite <- Hin.
  - eexists [_]. split; [reflexivity |].
    intros Hin. cbn in Hin. apply list_elem_of_singleton in Hin. discriminate.
Qed.

Lemma playTurns_null_ends player turns :
  nullStays engine ->
  forall game (st : R * list Entry),
  exists new,
    snd (snd (fst (playTurns (engine := recorded) player turns game st))) =
      snd st ++ new /\
    (Returns None ∈ actionAnswers new ->
     fst (fst (playTurns (engine := recorded) player turns game st)) = Done None).
Proof.
  intros Hstays.
  induction turns as [| period rest IH]; intros game st; simpl;
    destruct (inPlay game) eqn:Hplay;
    try (exists []; split; [now rewrite app_nil_r | intros Hin; inversion Hin]).
  unfold bind.
  destruct (turn_null_ends player (Some period) st Hstays) as (new1 & Hj1 & Hnull1).
  destruct (turn (engine := recorded) player (Some period) st)
    as [[[g1 | e |] st1] l1]; simpl in *.
  - destruct (IH g1 st1) as (new2 & Hj2 & Hnull2).
    destruct (playTurns (engine := recorded) player rest g1 st1)
      as [[s2 st2] l2] eqn:Hrest; simpl in *.
    exists (new1 ++ new2). split; [now rewrite Hj2, Hj1, app_assoc |].
    unfold actionAnswers. rewrite omap_app, elem_of_app. intros [Hin | Hin].
    + apply Hnull1 in Hin. injection Hin as ->.
      rewrite playTurns_over in Hrest by reflexivity. now injection Hrest as <- _ _.
    + now apply Hnull2.
  - exists new1. split; [exact Hj1 |]. intros Hin. now apply Hnull1 in Hin.
  - exists new1. split; [exact Hj1 |]. intros Hin. now apply Hnull1 in Hin.
Qed.

End Journalled.
(** ** Settlement, in every run *)

Section Settlement.
Import Journal.

Context {R : Type} {engine : Engine R}.
Variable getEmojiByName : string -> string.

Local Abbreviation recorded := (recording engine).

(** A run settles at most once, at its very end, for a game that is DONE. *)
Lemma messageRun_settlesOnce message args coins turns (r : R) :
  settlesOnce (id (author message))
    (messageRun getEmojiByName message args coins turns r).
Proof.
  unfold messageRun, try_catch.
  pose proof (messageRunBody_settlesOnce getEmojiByName message args coins turns r) as Hbody.
  destruct (messageRunBody getEmojiByName message args coins turns r)
    as [[[[a |] | e |] r1] l1]; simpl in Hbody; try exact Hbody.
  destruct e; simpl; rewrite ?app_nil_r; try exact Hbody.
  apply Forall_app; split; [exact Hbody | repeat constructor].
Qed.

Lemma recorded_startGame amount player channel (st : R * list Entry) :
  startGame (Engine := recorded) amount player channel st =
    (fst (startGame amount player channel (fst st)),
     (snd (startGame amount player channel (fst st)),
      snd st ++ [(StartGame amount player channel,
                  fst (startGame amount player channel (fst st)))])).
Proof.
  unfold startGame at 1. unfold recording.
  destruct (startGame amount player channel (fst st)) as [o r']. reflexivity.
Qed.

(** The run of a request on a recording engine: either no call of
    [performGameAction] is in the journal and no game message is returned,
    or a game started and the loop ran from the journal of that start. *)
Lemma recorded_run_cases message args coins turns (r : R) :
  (actionAnswers
     (snd (snd (fst (messageRun (engine := recorded) getEmojiByName message args coins
                       turns (r, []))))) = [] /\
   fst (fst (messageRun (engine := recorded) getEmojiByName message args coins
               turns (r, []))) = Done None) \/
  exists amount g r1,
    messageRun (engine := recorded) getEmojiByName message args coins turns (r, []) =
      match playTurns (engine := recorded) (id (author message)) turns (Some g)
              (r1, [(StartGame amount (id (author message)) (channel_id message),
                     Returns (Some g))]) with
      | (Done (Some final), st2, l) =>
          (Done (Some tt), (BlackjackEngine.endGame (id (author message)) (fst st2), snd st2),
           [ GetCoinBalanceByUserId (id (author message));
             StartGame amount (id (author message)) (channel_id message) ]
             ++ shownAtStart g ++ l ++ settlementCalls (id (author message)) final)
      | (Raised (CodeyUserError text), st2, l) =>
          (Done None, st2,
           [ GetCoinBalanceByUserId (id (author message));
             StartGame amount (id (author message)) (channel_id message) ]
             ++ shownAtStart g ++ l ++ [SendToUser text])
      | (Done None, st2, l) | (Raised _, st2, l) =>
          (Done None, st2,
           [ GetCoinBalanceByUserId (id (author message));
             StartGame amount (id (author message)) (channel_id message) ]
             ++ shownAtStart g ++ l)
      | (Awaiting, st2, l) =>
          (Awaiting, st2,
           [ GetCoinBalanceByUserId (id (author message));
             StartGame amount (id (author message)) (channel_id message) ]
             ++ shownAtStart g ++ l)
      end.
Proof.
  destruct (body_cases (engine := recorded) getEmojiByName message args coins turns (r, []))
    as [[_ Hbody] | [(amount & _ & _ & Hbody) | [(amount & _ & _ & _ & Hbody)
       | (amount & Hbet & Hbounds & Hcov & Hbody)]]];
    try (left; rewrite messageRun_of_body, Hbody; split; reflexivity).
  destruct (startGame (Engine := recorded) amount (id (author message))
              (channel_id message) (r, [])) as [[[g |] | e] st1] eqn:Hstart.
  - right. exists amount, g, (fst st1).
    assert (Hok : validateBetAmount amount = "").
    { destruct (validateBetAmount_cases amount) as [[? _] | [[? _] | [_ H]]];
        [lia | lia | exact H]. }
    rewrite (run_by_loop (engine := recorded) getEmojiByName message args coins turns
               amount g (r, []) st1 Hbet Hok Hcov Hstart).
    rewrite recorded_startGame in Hstart. simpl in Hstart.
    injection Hstart as Hanswer <-. rewrite Hanswer. reflexivity.
  - left. rewrite messageRun_of_body, Hbody.
    rewrite recorded_startGame in Hstart. injection Hstart as Hanswer <-.
    split; reflexivity.
  - left. rewrite messageRun_of_body, Hbody.
    rewrite recorded_startGame in Hstart. injection Hstart as Hanswer <-.
    destruct e; split; reflexivity.
Qed.

(** The game a run settles is, but for its stage, the last answer of the
    engine. *)
Lemma run_last_answer message args coins turns (r : R) u st' log :
  messageRun (engine := recorded) getEmojiByName message args coins turns (r, []) =
    (Done (Some u), st', log) ->
  exists before call answered pre,
    snd st' = before ++ [(call, Returns (Some answered))] /\
    log = pre ++ [AdjustCoinBalanceByUserId (id (author message))
                    (amountWon answered - bet answered) Blackjack].
Proof.
  destruct (recorded_run_cases message args coins turns r)
    as [[_ Hnone] | (amount & g & r1 & ->)].
  { intros Hrun. rewrite Hrun in Hnone. discriminate. }
  destruct (playTurns _ _ _ _) as [[[[final |] | e |] st2] l] eqn:Hloop;
    try discriminate; [| destruct e; discriminate].
  intros [= _ <- <-].
  assert (Hlast : exists before call answered,
             snd st2 = before ++ [(call, Returns (Some answered))] /\
             (final = answered \/ final = setStage DONE answered)).
  { destruct (playTurns_last_answer _ _ _ _ _ _ _ Hloop) as [[[= <-] ->] | Hlast];
      [| exact Hlast].
    exists [], (StartGame amount (id (author message)) (channel_id message)), g.
    split; [reflexivity | now left]. }
  destruct Hlast as (before & call & answered & Hjournal & Hfinal).
  exists before, call, answered.
  eexists (_ :: _ :: shownAtStart g ++ l ++ [_; _; _]).
  split; [exact Hjournal |].
  unfold settlementCalls. simpl. rewrite <- !app_assoc. simpl.
  now destruct Hfinal as [-> | ->].
Qed.

Lemma shownAtStart_notSettlement (g : GameState) :
  Forall notSettlement (shownAtStart g).
Proof. unfold shownAtStart. destruct (bool_decide (stage g = DONE)); repeat constructor. Qed.

(** On an engine whose null answers stay: once [performGameAction] has
    answered null after the start of a game, what follows the start returns
    no game message and makes no settlement call. *)
Lemma afterStart_null_ends message turns (g : GameState) (r : R) :
  nullStays engine ->
  Returns None ∈
    actionAnswers (snd (snd (fst (afterStart (engine := recorded) message turns g (r, []))))) ->
  fst (fst (afterStart (engine := recorded) message turns g (r, []))) = Done None /\
  Forall notSettlement (snd (afterStart (engine := recorded) message turns g (r, []))).
Proof.
  intros Hstays. rewrite afterStart_by_loop.
  destruct (playTurns_null_ends (id (author message)) turns Hstays (Some g) (r, []))
    as (new & Hjournal & Hnull).
  pose proof (playTurns_notSettlement (engine := recorded) turns (id (author message))
                (Some g) (r, [])) as Hlog.
  destruct (playTurns _ _ _ _) as [[[[final |] | e |] st2] l]; simpl in *;
    rewrite Hjournal; intros Hin; apply Hnull in Hin; try discriminate.
  split; [reflexivity |].
  change (Forall notSettlement (shownAtStart g ++ l)).
  apply Forall_app; split; [apply shownAtStart_notSettlement | exact Hlog].
Qed.

(** The same for a whole run, from its request on. *)
Lemma run_null_ends message args coins turns (r : R) :
  nullStays engine ->
  Returns None ∈
    actionAnswers
      (snd (snd (fst (messageRun (engine := recorded) getEmojiByName message args coins
                        turns (r, []))))) ->
  fst (fst (messageRun (engine := recorded) getEmojiByName message args coins
              turns (r, []))) = Done None.
Proof.
  intros Hstays.
  destruct (recorded_run_cases message args coins turns r)
    as [[-> Hnone] | (amount & g & r1 & ->)].
  { intros Hin. inversion Hin. }
  destruct (playTurns_null_ends (id (author message)) turns Hstays (Some g)
              (r1, [(StartGame amount (id (author message)) (channel_id message),
                     Returns (Some g))])) as (new & Hjournal & Hnull).
  destruct (playTurns _ _ _ _) as [[[[final |] | e |] st2] l]; simpl in *;
    try destruct e; simpl; try reflexivity;
    rewrite Hjournal; cbn; intros Hin; apply Hnull in Hin; discriminate.
Qed.

(** C1: the balance change of a game is amountWon - bet, zero when
    amountWon equals the bet, and not changed by the stage the handler of the
    loop sets.  A request whose game starts and whose loop ends with a game
    settles exactly that game: the run shows it, removes the reactions, ends
    the game in the engine and adjusts the author's balance by its
    amountWon - bet, as its last four calls.  In every run, a returned game
    message comes with this settlement of one DONE game and with no other
    settlement call, and any other run has none.  On a recording engine, the
    adjustment of a run that returns the game message is amountWon - bet of
    the last game the engine answered. *)
Theorem settlement_adjusts_by_amountWon_minus_bet message args coins turns (r : R) :
  (forall game, getBalanceChange game = amountWon game - bet game) /\
  (forall game, amountWon game = bet game -> getBalanceChange game = 0) /\
  (forall game, getBalanceChange (setStage DONE game) = getBalanceChange game) /\
  (forall amount g r1 final r2 l,
     requestedBet args = Some amount ->
     validateBetAmount amount = "" ->
     amount <= coins (id (author message)) ->
     startGame amount (id (author message)) (channel_id message) r =
       (Returns (Some g), r1) ->
     playTurns (id (author message)) turns (Some g) r1 = (Done (Some final), r2, l) ->
     stage final = DONE /\
     messageRun getEmojiByName message args coins turns r =
       (Done (Some tt), BlackjackEngine.endGame (id (author message)) r2,
        [ GetCoinBalanceByUserId (id (author message));
          StartGame amount (id (author message)) (channel_id message) ]
          ++ shownAtStart g ++ l
          ++ [ MsgEdit (getEmbedFromGame final); ReactionsRemoveAll;
               EndGame (id (author message));
               AdjustCoinBalanceByUserId (id (author message))
                 (amountWon final - bet final) Blackjack ])) /\
  match messageRun getEmojiByName message args coins turns r with
  | (Done (Some _), _, log) =>
      exists game pre,
        stage game = DONE /\ Forall notSettlement pre /\
        log = pre ++ [ MsgEdit (getEmbedFromGame game); ReactionsRemoveAll;
                       EndGame (id (author message));
                       AdjustCoinBalanceByUserId (id (author message))
                         (getBalanceChange game) Blackjack ]
  | (_, _, log) => Forall notSettlement log
  end /\
  match messageRun (engine := recording engine) getEmojiByName message args coins
          turns (r, []) with
  | (Done (Some _), (_, journal), log) =>
      exists before call answered pre,
        journal = before ++ [(call, Returns (Some answered))] /\
        log = pre ++ [AdjustCoinBalanceByUserId (id (author message))
                        (amountWon answered - bet answered) Blackjack]
  | _ => True
  end.
Proof.
  split; [reflexivity |].
  split; [intros game Heq; unfold getBalanceChange; lia |].
  split; [reflexivity |].
  split; [| split].
  - intros amount g r1 final r2 l Hbet Hok Hcov Hstart Hloop.
    split; [eapply inPlay_false_Some, playTurns_exit, Hloop |].
    rewrite (run_by_loop getEmojiByName message args coins turns amount g r r1
               Hbet Hok Hcov Hstart), Hloop.
    reflexivity.
  - exact (messageRun_settlesOnce message args coins turns r).
  - destruct (messageRun (engine := recording engine) getEmojiByName message args coins
                turns (r, [])) as [[[[u |] | e |] [r' journal]] log] eqn:Hrun; try exact I.
    exact (run_last_answer message args coins turns r u (r', journal) log Hrun).
Qed.

End Settlement.

(** ** Null answers of the engine of the specification *)

Section NullAnswers.
Import Journal.

Variable newShuffledDeck : nat -> list Card.
Variable getEmojiByName : string -> string.

(** On the engine of the specification a null answer leaves the registry as
    it was, so the QUIT that follows is answered null as well. *)
Lemma specEngine_nullStays : nullStays (SpecEngine.specEngine newShuffledDeck).
Proof.
  intros player action reg. simpl. unfold SpecEngine.performGameAction.
  destruct (SpecEngine.gamesByPlayerId reg !! player) as [game |] eqn:Hgame.
  - destruct (bool_decide (stage game = IN_PROGRESS)) eqn:Hstage.
    + destruct (SpecEngine.applyAction action game); discriminate.
    + intros _. simpl. now rewrite Hgame, Hstage.
  - intros _. simpl. now rewrite Hgame.
Qed.

(** C6: [endGame] is called only for a game that left the loop non-null and
    DONE.  For a request whose game starts, the loop itself makes no
    settlement call; when it ends with a game, that game is DONE and the run
    ends with its settlement; when it ends in any other way the run makes no
    settlement call and leaves the engine as the loop left it.  In every run
    the settlement calls are the last ones, for one DONE game, or there are
    none.  On the engine of the specification, a run in which
    [performGameAction] answered null returns no game message and calls
    neither [endGame] nor the balance adjustment; and so does what follows
    the start of a game whatever the registry holds by then, as when the
    game was ended from elsewhere. *)
Theorem endGame_only_for_done_game {R : Type} {engine : Engine R}
    message args coins turns (r : R) :
  (forall amount g r1,
     requestedBet args = Some amount ->
     validateBetAmount amount = "" ->
     amount <= coins (id (author message)) ->
     startGame amount (id (author message)) (channel_id message) r =
       (Returns (Some g), r1) ->
     Forall notSettlement (snd (playTurns (id (author message)) turns (Some g) r1)) /\
     match playTurns (id (author message)) turns (Some g) r1 with
     | (Done (Some final), r2, l) =>
         stage final = DONE /\
         messageRun getEmojiByName message args coins turns r =
           (Done (Some tt), BlackjackEngine.endGame (id (author message)) r2,
            [ GetCoinBalanceByUserId (id (author message));
              StartGame amount (id (author message)) (channel_id message) ]
              ++ shownAtStart g ++ l
              ++ [ MsgEdit (getEmbedFromGame final); ReactionsRemoveAll;
                   EndGame (id (author message));
                   AdjustCoinBalanceByUserId (id (author message))
                     (getBalanceChange final) Blackjack ])
     | (_, r2, _) =>
         snd (fst (messageRun getEmojiByName message args coins turns r)) = r2 /\
         Forall notSettlement (snd (messageRun getEmojiByName message args coins turns r))
     end) /\
  match messageRun getEmojiByName message args coins turns r with
  | (Done (Some _), _, log) =>
      exists game pre,
        stage game = DONE /\ Forall notSettlement pre /\
        log = pre ++ [ MsgEdit (getEmbedFromGame game); ReactionsRemoveAll;
                       EndGame (id (author message));
                       AdjustCoinBalanceByUserId (id (author message))
                         (getBalanceChange game) Blackjack ]
  | (_, _, log) => Forall notSettlement log
  end /\
  (forall reg : SpecEngine.Registry,
     match messageRun (engine := recording (SpecEngine.specEngine newShuffledDeck))
             getEmojiByName message args coins turns (reg, []) with
     | (result, (_, journal), log) =>
         Returns None ∈ actionAnswers journal ->
         result = Done None /\ Forall notSettlement log
     end) /\
  (forall (g : GameState) (reg : SpecEngine.Registry),
     match afterStart (engine := recording (SpecEngine.specEngine newShuffledDeck))
             message turns g (reg, []) with
     | (result, (_, journal), log) =>
         Returns None ∈ actionAnswers journal ->
         result = Done None /\ Forall notSettlement log
     end).
Proof.
  split; [| split; [| split]].
  - intros amount g r1 Hbet Hok Hcov Hstart.
    split; [apply playTurns_notSettlement |].
    pose proof (run_by_loop getEmojiByName message args coins turns amount g r r1
                  Hbet Hok Hcov Hstart) as Hrun.
    pose proof (messageRun_settlesOnce getEmojiByName message args coins turns r) as Honce.
    destruct (playTurns (id (author message)) turns (Some g) r1)
      as [[[[final |] | e |] r2] l] eqn:Hloop.
    + split; [eapply inPlay_false_Some, playTurns_exit, Hloop | exact Hrun].
    + rewrite Hrun in Honce |- *. split; [reflexivity | exact Honce].
    + destruct e; rewrite Hrun in Honce |- *; (split; [reflexivity | exact Honce]).
    + rewrite Hrun in Honce |- *. split; [reflexivity | exact Honce].
  - exact (messageRun_settlesOnce getEmojiByName message args coins turns r).
  - intros reg.
    pose proof (run_null_ends getEmojiByName message args coins turns reg
                  specEngine_nullStays) as Hnull.
    pose proof (messageRun_settlesOnce
                  (engine := recording (SpecEngine.specEngine newShuffledDeck))
                  getEmojiByName message args coins turns (reg, [])) as Honce.
    destruct (messageRun (engine := recording (SpecEngine.specEngine newShuffledDeck))
                getEmojiByName message args coins turns (reg, []))
      as [[result [reg' journal]] log].
    intros Hin. simpl in Hnull. specialize (Hnull Hin). subst result.
    split; [reflexivity | exact Honce].
  - intros g reg.
    pose proof (afterStart_null_ends message turns g reg specEngine_nullStays) as Hnull.
    destruct (afterStart (engine := recording (SpecEngine.specEngine newShuffledDeck))
                message turns g (reg, []))
      as [[result [reg' journal]] log].
    exact Hnull.
Qed.

End NullAnswers.

(** ** Settlement at concrete inputs *)

Section SettledInstances.
Import Samples Journal.

Local Abbreviation table := (SpecEngine.specEngine stacked).

Lemma settlement_adjusts_by_amountWon_minus_bet_witness :
  stage lost = DONE /\
  messageRun (engine := table) emojiText request (betOf 10) rich
    [period [reacts "🇸" alice]] emptyRegistry =
  (Done (Some tt), {| SpecEngine.gamesByPlayerId := ∅; SpecEngine.shuffles := 1 |},
   [ GetCoinBalanceByUserId "alice"; StartGame 10 "alice" "games";
     MessageReplyEmbed (getEmbedFromGame dealt);
     MsgReact "🇭"; MsgReact "🇸"; MsgReact "🇶";
     AwaitReactions oneMinute;
     ReactionUsersRemove {| emoji_name := Some "🇸" |} "alice";
     PerformGameAction "alice" STAND;
     MsgEdit (getEmbedFromGame lost);
     MsgEdit (getEmbedFromGame lost);
     ReactionsRemoveAll; EndGame "alice";
     AdjustCoinBalanceByUserId "alice" (-10) Blackjack ]).
Proof.
  exact (proj1 (proj2 (proj2 (proj2
           (settlement_adjusts_by_amountWon_minus_bet (engine := table) emojiText
              request (betOf 10) rich [period [reacts "🇸" alice]] emptyRegistry))))
           10 dealt
           (snd (SpecEngine.startGame stacked 10 "alice" "games" emptyRegistry))
           lost
           (snd (SpecEngine.performGameAction "alice" STAND
                   (snd (SpecEngine.startGame stacked 10 "alice" "games" emptyRegistry))))
           [ AwaitReactions oneMinute;
             ReactionUsersRemove {| emoji_name := Some "🇸" |} "alice";
             PerformGameAction "alice" STAND;
             MsgEdit (getEmbedFromGame lost) ]
           eq_refl eq_refl ltac:(vm_compute; discriminate) eq_refl eq_refl).
Defined.

(** Alice stands on 20 and loses; Discord rejects the edit that shows it,
    and the QUIT of the handler is answered null, the game being DONE. *)
Lemma endGame_only_for_done_game_witness :
  actionAnswers
    (snd (snd (fst (messageRun (engine := recording table) emojiText request (betOf 10)
                      rich
                      [ {| reactions := [reacts "🇸" alice];
                           removeRejected := false; editRejected := true |} ]
                      (emptyRegistry, []))))) =
    [Returns (Some lost); Returns None] /\
  fst (fst (messageRun (engine := recording table) emojiText request (betOf 10) rich
              [ {| reactions := [reacts "🇸" alice];
                   removeRejected := false; editRejected := true |} ]
              (emptyRegistry, []))) = Done None /\
  Forall notSettlement
    (snd (messageRun (engine := recording table) emojiText request (betOf 10) rich
            [ {| reactions := [reacts "🇸" alice];
                 removeRejected := false; editRejected := true |} ]
            (emptyRegistry, []))).
Proof.
  split; [reflexivity |].
  pose proof (proj1 (proj2 (proj2
                (endGame_only_for_done_game (engine := table) stacked emojiText
                   request (betOf 10) rich
                   [ {| reactions := [reacts "🇸" alice];
                        removeRejected := false; editRejected := true |} ]
                   emptyRegistry))) emptyRegistry) as H.
  vm_compute in H. apply H. right. constructor.
Defined.

End SettledInstances.

(** * Further properties of the command *)

Import MoreCalls.

(** Goes through a computation like [calls], closing what is left with [tac]. *)
Ltac callsBy tac :=
  repeat first
    [ apply emitsOnly_ret | apply emitsOnly_raise | apply emitsOnly_awaiting
    | apply emitsOnly_emit | apply emitsOnly_performGameAction
    | apply emitsOnly_awaitReactions | apply emitsOnly_getCoinBalanceByUserId
    | apply emitsOnly_startGame
    | apply emitsOnly_bind | apply emitsOnly_try_catch
    | match goal with
      | |- emitsOnly _ (match ?x with _ => _ end) => destruct x
      | |- forall _, _ => intro
      end
    | tac ].

Section Emitted.

Context {R : Type} {engine : Engine R}.
Variable getEmojiByName : string -> string.

(** A property of every call the command can issue for [player] holds of
    every call of the loop and of what follows the start of a game. *)
Variable P : Event -> Prop.
Variable player : string.
Hypothesis P_await : forall o, P (AwaitReactions o).
Hypothesis P_remove : forall re, P (ReactionUsersRemove re player).
Hypothesis P_perform : forall a, P (PerformGameAction player a).
Hypothesis P_edit : forall e, P (MsgEdit e).
Hypothesis P_reply : forall t, P (MessageReply t).

Lemma turn_emitsOnly period : emitsOnly P (turn player period).
Proof.
  unfold turn, handlePlayerAction, performActionFromReaction, editWithGame.
  callsBy ltac:(solve [auto]).
Qed.

Lemma playTurns_emitsOnly turns :
  forall game, emitsOnly P (playTurns player turns game).
Proof.
  induction turns as [| period rest IH]; intros game; simpl;
    destruct (inPlay game);
    try apply emitsOnly_ret; try apply turn_emitsOnly.
  apply emitsOnly_bind; [apply turn_emitsOnly | intros g; apply IH].
Qed.

Hypothesis P_embed : forall e, P (MessageReplyEmbed e).
Hypothesis P_react : forall emoji, emoji ∈ ["🇭"; "🇸"; "🇶"] -> P (MsgReact emoji).
Hypothesis P_removeAll : P ReactionsRemoveAll.
Hypothesis P_end : P (EndGame player).
Hypothesis P_adjust : forall delta, P (AdjustCoinBalanceByUserId player delta Blackjack).

Lemma afterStart_emitsOnly (message : Message) turns g :
  id (author message) = player ->
  emitsOnly P (afterStart (engine := engine) message turns g).
Proof.
  intros Hid. unfold afterStart, endGame, call_endGame. rewrite Hid.
  apply emitsOnly_bind; [callsBy ltac:(solve [auto]) | intros _].
  apply emitsOnly_bind.
  { destruct (negb _); [| apply emitsOnly_ret].
    repeat (apply emitsOnly_bind; [| intros _]); apply emitsOnly_emit, P_react;
      set_solver. }
  intros _. apply emitsOnly_bind; [apply playTurns_emitsOnly | intros [g' |]].
  - repeat (apply emitsOnly_bind; [| intros _]);
      try apply emitsOnly_emit; try apply emitsOnly_ret; auto.
  - apply emitsOnly_ret.
Qed.

Hypothesis P_send : forall t, P (SendToUser t).

(** A run issues at most a balance read and a [startGame], in that order
    and only for a bet within bounds that the balance covers, and then only
    calls of the game and of error reporting. *)
Lemma run_prefix (message : Message) args coins turns (r : R) :
  id (author message) = player ->
  exists pre rest,
    snd (messageRun (engine := engine) getEmojiByName message args coins turns r) =
      pre ++ rest /\
    Forall P rest /\
    (pre = [] \/ pre = [GetCoinBalanceByUserId player] \/
     exists amount,
       requestedBet args = Some amount /\ 10 <= amount <= 1000000 /\
       amount <= coins player /\
       pre = [GetCoinBalanceByUserId player;
              StartGame amount player (channel_id message)]).
Proof.
  intros Hid. rewrite messageRun_of_body.
  destruct (body_cases getEmojiByName message args coins turns r)
    as [[_ ->] | [(amount & _ & _ & ->) | [(amount & _ & _ & _ & ->)
        | (amount & Hbet & Hb & Hcov & ->)]]]; rewrite ?Hid in *.
  - exists [], [SendToUser "please enter a valid bet amount."].
    repeat split; auto.
  - exists [], [SendToUser (validateBetAmount amount)]. repeat split; auto.
  - eexists [_], [SendToUser _]. repeat split; auto.
  - destruct (startGame amount player (channel_id message) r) as [[[g |] | e] r1].
    + pose proof (afterStart_emitsOnly message turns g Hid r1) as Hafter.
      destruct (afterStart message turns g r1) as [[[a | e |] r2] l2]; simpl in *.
      * eexists [_; _], l2. repeat split; eauto 10.
      * destruct e.
        -- eexists [_; _], (l2 ++ [SendToUser text]). repeat split; eauto 10.
           apply Forall_app; split; auto.
        -- eexists [_; _], l2. repeat split; eauto 10.
        -- eexists [_; _], l2. repeat split; eauto 10.
        -- eexists [_; _], l2. repeat split; eauto 10.
        -- eexists [_; _], l2. repeat split; eauto 10.
      * eexists [_; _], l2. repeat split; eauto 10.
    + eexists [_; _], [SendToUser _]. repeat split; eauto 10.
    + destruct e.
      * eexists [_; _], [SendToUser _]. repeat split; eauto 10.
      * eexists [_; _], []. repeat split; eauto 10.
      * eexists [_; _], []. repeat split; eauto 10.
      * eexists [_; _], []. repeat split; eauto 10.
      * eexists [_; _], []. repeat split; eauto 10.
Qed.

End Emitted.

Section RunProperties.

Context {R : Type} {engine : Engine R}.
Variable getEmojiByName : string -> string.


(** X1: whatever the engine and the player do, [messageRun] does not end by
    an exception: it returns the message, returns nothing, or is still
    waiting for the player. *)
Theorem messageRun_never_raises message args coins turns (r : R) :
  (exists returned,
     fst (fst (messageRun getEmojiByName message args coins turns r)) = Done returned) \/
  fst (fst (messageRun getEmojiByName message args coins turns r)) = Awaiting.
Proof.
  rewrite messageRun_of_body.
  destruct (messageRunBody getEmojiByName message args coins turns r) as [[[a | e0 |] r1] l1];
    [left; now exists a | | now right].
  left. exists None. destruct e0; reflexivity.
Qed.

(** X2: startGame is called at most once in a run, for the author in the
    channel of the request, with the bet of the request, which is within
    10..1000000 and not above the balance; and it is called, right after the
    balance read, whenever the bet is within bounds and the balance is at
    least the bet (a balance equal to the bet is enough). *)
Theorem startGame_iff_bet_valid_and_covered message args coins turns (r : R) :
  (forall amount p c,
     StartGame amount p c ∈ snd (messageRun getEmojiByName message args coins turns r) ->
     p = id (author message) /\ c = channel_id message /\
     requestedBet args = Some amount /\ 10 <= amount <= 1000000 /\
     amount <= coins (id (author message))) /\
  (length (List.filter isStartGameCall
             (snd (messageRun getEmojiByName message args coins turns r))) <= 1)%nat /\
  (forall amount,
     requestedBet args = Some amount -> 10 <= amount <= 1000000 ->
     amount <= coins (id (author message)) ->
     exists tail,
       snd (messageRun getEmojiByName message args coins turns r) =
         GetCoinBalanceByUserId (id (author message))
           :: StartGame amount (id (author message)) (channel_id message) :: tail).
Proof.
  destruct (run_prefix getEmojiByName (fun e => isStartGameCall e = false)
              (id (author message)))
    with (message := message) (args := args) (coins := coins) (turns := turns) (r := r)
    as (pre & rest & Hlog & Hrest & Hpre); try reflexivity.
  assert (Hnone : List.filter isStartGameCall rest = []).
  { clear Hlog. induction Hrest as [| e l He _ IH]; simpl; [reflexivity |].
    now rewrite He. }
  split; [| split].
  - intros amount p c Hin. rewrite Hlog in Hin.
    apply elem_of_app in Hin as [Hin | Hin].
    + destruct Hpre as [-> | [-> | (a & Hbet & Hb & Hcov & ->)]].
      * inversion Hin.
      * apply list_elem_of_singleton in Hin. discriminate.
      * apply elem_of_cons in Hin as [Hin | Hin]; [discriminate |].
        apply list_elem_of_singleton in Hin. injection Hin as -> -> ->. auto.
    + rewrite Forall_forall in Hrest. apply Hrest in Hin. discriminate.
  - rewrite Hlog, List.filter_app, Hnone, app_nil_r.
    destruct Hpre as [-> | [-> | (a & _ & _ & _ & ->)]]; simpl; lia.
  - intros amount Hbet Hb Hcov.
    rewrite messageRun_of_body.
    destruct (body_cases getEmojiByName message args coins turns r)
      as [[Hn _] | [(a & Ha & Herr & _) | [(a & Ha & _ & Hlow & _)
          | (a & Ha & _ & _ & ->)]]].
    + congruence.
    + assert (a = amount) as -> by congruence.
      apply validateBetAmount_error_iff in Herr. lia.
    + assert (a = amount) as -> by congruence. lia.
    + assert (a = amount) as -> by congruence.
      destruct (startGame amount (id (author message)) (channel_id message) r)
        as [[[g |] | e] r1].
      * destruct (afterStart message turns g r1) as [[[x | e |] r2] l2]; simpl;
          [eauto | destruct e; simpl; eauto | eauto].
      * simpl. eauto.
      * destruct e; simpl; eauto.
Qed.

(** X3: every call of a run that names a user (balance read and adjustment,
    startGame, performGameAction, endGame, removal of a reaction) names the
    author of the request. *)
Theorem calls_name_only_the_author message args coins turns (r : R) :
  Forall (namesOnly (id (author message)))
    (snd (messageRun getEmojiByName message args coins turns r)).
Proof.
  destruct (run_prefix getEmojiByName (namesOnly (id (author message)))
              (id (author message)))
    with (message := message) (args := args) (coins := coins) (turns := turns) (r := r)
    as (pre & rest & -> & Hrest & Hpre); simpl; auto.
  apply Forall_app; split; [| exact Hrest].
  destruct Hpre as [-> | [-> | (a & _ & _ & _ & ->)]]; repeat constructor.
Qed.

(** X4: a request whose argument is not an integer is answered with "please
    enter a valid bet amount." and nothing else: no balance read, no call to
    the engine, whose state is left as it was. *)
Theorem invalid_argument_reported message args coins turns (r : R) :
  finished args = false ->
  rest_integer args = None ->
  messageRunBody getEmojiByName message args coins turns r =
    (Raised (CodeyUserError "please enter a valid bet amount."), r, []) /\
  messageRun getEmojiByName message args coins turns r =
    (Done None, r, [SendToUser "please enter a valid bet amount."]).
Proof.
  intros Hfin Hrest.
  assert (Hbody : messageRunBody getEmojiByName message args coins turns r =
                    (Raised (CodeyUserError "please enter a valid bet amount."), r, [])).
  { unfold messageRunBody. rewrite Hfin, Hrest. reflexivity. }
  split; [exact Hbody |].
  rewrite messageRun_of_body, Hbody. reflexivity.
Qed.

(** X5: when the game that startGame returns is already DONE, the run adds
    no reaction and waits for none: whatever the player does, it shows the
    game, edits the message once, and settles with the balance change of
    that game. *)
Theorem game_done_at_deal_settles_at_once message args coins turns (r r1 : R)
    (amount : Z) (g : GameState) :
  requestedBet args = Some amount ->
  validateBetAmount amount = "" ->
  amount <= coins (id (author message)) ->
  startGame amount (id (author message)) (channel_id message) r = (Returns (Some g), r1) ->
  stage g = DONE ->
  messageRun getEmojiByName message args coins turns r =
    (Done (Some tt), BlackjackEngine.endGame (id (author message)) r1,
     [ GetCoinBalanceByUserId (id (author message));
       StartGame amount (id (author message)) (channel_id message);
       MessageReplyEmbed (getEmbedFromGame g);
       MsgEdit (getEmbedFromGame g);
       ReactionsRemoveAll; EndGame (id (author message));
       AdjustCoinBalanceByUserId (id (author message)) (amountWon g - bet g) Blackjack ]).
Proof.
  intros Hbet Hok Hcov Hstart Hdone.
  rewrite messageRun_of_body,
    (messageRunBody_valid_bet getEmojiByName message args coins turns amount r Hbet Hok),
    Hstart.
  destruct (Z.ltb_spec (coins (id (author message))) amount) as [Hlow | _]; [lia |].
  assert (Hafter : afterStart message turns g r1 =
            (Done (Some tt), BlackjackEngine.endGame (id (author message)) r1,
             [ MessageReplyEmbed (getEmbedFromGame g);
               MsgEdit (getEmbedFromGame g);
               ReactionsRemoveAll; EndGame (id (author message));
               AdjustCoinBalanceByUserId (id (author message))
                 (amountWon g - bet g) Blackjack ])).
  { unfold afterStart. rewrite (bool_decide_eq_true_2 _ Hdone). simpl.
    unfold bind at 1. unfold emit at 1. unfold bind at 1. unfold ret at 1.
    unfold bind at 1.
    rewrite playTurns_over by (simpl; now rewrite (bool_decide_eq_true_2 _ Hdone)).
    reflexivity. }
  rewrite Hafter. reflexivity.
Qed.

End RunProperties.

Section LoopProperties.

Context {R : Type} {engine : Engine R}.
Variable getEmojiByName : string -> string.


Lemma actionFor_performed (name : string) (action : BlackjackAction) player
    (re : MessageReaction) (r : R) :
  emoji_name re = Some name -> actionFor name action ->
  performActionFromReaction [re] player false r =
    (ofOutcome (fst (performGameAction player action r)),
     snd (performGameAction player action r),
     [ReactionUsersRemove re player; PerformGameAction player action]).
Proof.
  intros Hname Hact.
  unfold performActionFromReaction, bind, call_performGameAction. simpl.
  rewrite Hname. simpl.
  destruct Hact as [[-> ->] | [[-> ->] | [-> ->]]]; simpl;
    match goal with
    | |- context [performGameAction player ?a r] =>
        destruct (performGameAction player a r) as [o r']
    end; reflexivity.
Qed.

(** The collector hands over the first reaction that passes the filter. *)
Lemma first_passing_collected player period pre re u post (r : R) :
  reactions period = pre ++ (re, u) :: post ->
  Forall (fun ru => reactFilter (fst ru) (snd ru) player = false) pre ->
  reactFilter re u player = true ->
  handlePlayerAction player (Some period) r =
    match performActionFromReaction [re] player (removeRejected period) r with
    | (s, r1, l1) => (s, r1, AwaitReactions oneMinute :: l1)
    end.
Proof.
  intros Hperiod Hpre Hpass.
  unfold handlePlayerAction, awaitReactions. simpl. rewrite Hperiod.
  rewrite List.filter_app, (filter_none _ _ Hpre). simpl. rewrite Hpass. simpl.
  unfold bind at 1.
  now destruct (performActionFromReaction [re] player (removeRejected period) r)
    as [[s r1] l1].
Qed.

(** What the handler of the loop does after an exception of the [try]. *)
Lemma turn_recovers player period (r r1 : R) e l1 :
  bind (handlePlayerAction player period)
    (fun game =>
       bind (editWithGame game (from_option editRejected false period))
         (fun _ => ret game)) r = (Raised e, r1, l1) ->
  turn player period r = quitSubmitted player r1 l1.
Proof.
  intros Hbody. unfold turn, try_catch. rewrite Hbody.
  unfold quitSubmitted, bind, call_performGameAction.
  destruct (performGameAction player QUIT r1) as [[answer | e1] r2]; reflexivity.
Qed.

(** X6: of the reactions of a waiting period, the first that passes the
    filter decides: what other users or other emojis did before it, and
    everything after it, is ignored, and the removal of that reaction is
    requested.  When Discord accepts the removal, the action of its emoji
    (STAND, HIT or QUIT) is submitted for the player; when Discord rejects
    it, that action is not submitted and the handler of the loop submits
    QUIT instead. *)
Theorem first_valid_reaction_decides player period pre re u post (r : R) :
  reactions period = pre ++ (re, u) :: post ->
  Forall (fun ru => reactFilter (fst ru) (snd ru) player = false) pre ->
  reactFilter re u player = true ->
  exists name action,
    emoji_name re = Some name /\ actionFor name action /\
    (removeRejected period = false ->
     handlePlayerAction player (Some period) r =
       (ofOutcome (fst (performGameAction player action r)),
        snd (performGameAction player action r),
        [ AwaitReactions oneMinute; ReactionUsersRemove re player;
          PerformGameAction player action ])) /\
    (removeRejected period = true ->
     handlePlayerAction player (Some period) r =
       (Raised DiscordAPIError, r,
        [ AwaitReactions oneMinute; ReactionUsersRemove re player ]) /\
     turn player (Some period) r =
       quitSubmitted player r
         [ AwaitReactions oneMinute; ReactionUsersRemove re player ]).
Proof.
  intros Hperiod Hpre Hpass.
  assert (Hact : exists name action, emoji_name re = Some name /\ actionFor name action).
  { apply reactFilter_true_iff in Hpass as [[H | [H | H]] _].
    - exists "🇸", STAND. split; [exact H | left; auto].
    - exists "🇭", HIT. split; [exact H | right; left; auto].
    - exists "🇶", QUIT. split; [exact H | right; right; auto]. }
  destruct Hact as (name & action & Hname & Hact).
  exists name, action. split; [exact Hname |]. split; [exact Hact |].
  pose proof (first_passing_collected player period pre re u post r Hperiod Hpre Hpass)
    as Hhandle.
  split; intros Hremoval; rewrite Hremoval in Hhandle.
  - rewrite Hhandle, (actionFor_performed name action player re r Hname Hact).
    reflexivity.
  - assert (Hraised :
              handlePlayerAction player (Some period) r =
                (Raised DiscordAPIError, r,
                 [ AwaitReactions oneMinute; ReactionUsersRemove re player ])).
    { rewrite Hhandle. reflexivity. }
    split; [exact Hraised |].
    apply (turn_recovers _ _ _ _ DiscordAPIError). unfold bind at 1. now rewrite Hraised.
Qed.

(** X16: after a reaction that passes the filter, whose removal Discord
    accepts and whose action the engine answers with a game, the command
    requests an edit of the message to show exactly that game.  When Discord
    accepts the edit the iteration ends with that game, its calls being the
    collector, the removal, the action and the edit; when Discord rejects
    the edit the handler of the loop submits QUIT after those four calls. *)
Theorem accepted_reaction_updates_message player period pre re u post (r r' : R)
    (name : string) (action : BlackjackAction) (answer : GameState) :
  reactions period = pre ++ (re, u) :: post ->
  Forall (fun ru => reactFilter (fst ru) (snd ru) player = false) pre ->
  reactFilter re u player = true ->
  emoji_name re = Some name ->
  actionFor name action ->
  removeRejected period = false ->
  performGameAction player action r = (Returns (Some answer), r') ->
  (editRejected period = false ->
   turn player (Some period) r =
     (Done (Some answer), r',
      [ AwaitReactions oneMinute; ReactionUsersRemove re player;
        PerformGameAction player action; MsgEdit (getEmbedFromGame answer) ])) /\
  (editRejected period = true ->
   turn player (Some period) r =
     quitSubmitted player r'
       [ AwaitReactions oneMinute; ReactionUsersRemove re player;
         PerformGameAction player action; MsgEdit (getEmbedFromGame answer) ]).
Proof.
  intros Hperiod Hpre Hpass Hname Hact Hremoval Hanswer.
  assert (Hhandle :
            handlePlayerAction player (Some period) r =
              (Done (Some answer), r',
               [ AwaitReactions oneMinute; ReactionUsersRemove re player;
                 PerformGameAction player action ])).
  { rewrite (first_passing_collected player period pre re u post r Hperiod Hpre Hpass),
      Hremoval, (actionFor_performed name action player re r Hname Hact), Hanswer.
    reflexivity. }
  split; intros Hedit.
  - unfold turn, try_catch. unfold bind at 1. rewrite Hhandle. simpl.
    rewrite Hedit. reflexivity.
  - apply (turn_recovers _ _ _ _ DiscordAPIError). unfold bind at 1. rewrite Hhandle. simpl.
    rewrite Hedit. reflexivity.
Qed.



Lemma body_never_sends message args coins turns (r : R) :
  Forall (fun e => isSendToUser e = false)
    (snd (messageRunBody getEmojiByName message args coins turns r)).
Proof.
  destruct (body_cases getEmojiByName message args coins turns r)
    as [[_ ->] | [(amount & _ & _ & ->) | [(amount & _ & _ & _ & ->)
        | (amount & _ & _ & _ & ->)]]]; simpl; repeat constructor.
  destruct (startGame amount (id (author message)) (channel_id message) r)
    as [[[g |] | e] r1]; simpl; repeat constructor.
  apply (afterStart_emitsOnly (fun e => isSendToUser e = false) (id (author message)));
    reflexivity.
Qed.

(** X8: an error message to the user is the last call of its run, the only
    one of its kind, and such a run returns nothing and never settles: it
    neither calls endGame nor adjusts a balance. *)
Theorem user_error_is_last_and_excludes_settlement message args coins turns (r : R)
    (text : string) :
  SendToUser text ∈ snd (messageRun getEmojiByName message args coins turns r) ->
  exists r' pre,
    messageRun getEmojiByName message args coins turns r =
      (Done None, r', pre ++ [SendToUser text]) /\
    Forall notSettlement pre /\
    Forall (fun e => isSendToUser e = false) pre.
Proof.
  rewrite messageRun_of_body.
  pose proof (body_never_sends message args coins turns r) as Hquiet.
  pose proof (messageRunBody_settlesOnce getEmojiByName message args coins turns r)
    as Hsettle.
  assert (Hno : forall l, Forall (fun e => isSendToUser e = false) l ->
                          SendToUser text ∈ l -> False).
  { intros l Hl Hin. rewrite Forall_forall in Hl. apply Hl in Hin. discriminate. }
  destruct (messageRunBody getEmojiByName message args coins turns r) as [[[a | e |] r1] l1];
    simpl in Hquiet |- *.
  - intros Hin. destruct (Hno _ Hquiet Hin).
  - destruct e; simpl; intros Hin; try destruct (Hno _ Hquiet Hin).
    apply elem_of_app in Hin as [Hin | Hin]; [destruct (Hno _ Hquiet Hin) |].
    apply list_elem_of_singleton in Hin. injection Hin as ->.
    exists r1, l1. repeat split; auto.
  - intros Hin. destruct (Hno _ Hquiet Hin).
Qed.

(** X9: when the engine throws at startGame (anything but a user error),
    the request ends silently: nothing is sent to the user, the calls are the
    balance read and startGame, and nothing is returned. *)
Theorem engine_failure_at_start_is_silent message args coins turns (r r1 : R)
    (amount : Z) (e : Exn) :
  requestedBet args = Some amount ->
  validateBetAmount amount = "" ->
  amount <= coins (id (author message)) ->
  startGame amount (id (author message)) (channel_id message) r = (Throws e, r1) ->
  (forall text, e <> CodeyUserError text) ->
  messageRun getEmojiByName message args coins turns r =
    (Done None, r1,
     [ GetCoinBalanceByUserId (id (author message));
       StartGame amount (id (author message)) (channel_id message) ]).
Proof.
  intros Hbet Hok Hcov Hstart Hnot.
  rewrite messageRun_of_body,
    (messageRunBody_valid_bet getEmojiByName message args coins turns amount r Hbet Hok),
    Hstart.
  destruct (Z.ltb_spec (coins (id (author message))) amount) as [Hlow | _]; [lia |].
  destruct e; try reflexivity. now contradiction (Hnot text).
Qed.

Lemma reactionsOffered_none (l : list Event) :
  Forall (fun e => forall emoji, e <> MsgReact emoji) l -> reactionsOffered l = [].
Proof.
  induction 1 as [| e l He _ IH]; [reflexivity |].
  destruct e; try exact IH. now contradiction (He emoji).
Qed.

Lemma reactionsOffered_cons (e : Event) (l : list Event) :
  reactionsOffered (e :: l) =
    match e with MsgReact emoji => [emoji] | _ => [] end ++ reactionsOffered l.
Proof. destruct e; reflexivity. Qed.

Lemma reactionsOffered_app (l1 l2 : list Event) :
  reactionsOffered (l1 ++ l2) = reactionsOffered l1 ++ reactionsOffered l2.
Proof. apply omap_app. Qed.

Lemma afterStart_in_progress message turns (g : GameState) (r1 : R) :
  stage g <> DONE ->
  exists s r2 l3,
    afterStart (engine := engine) message turns g r1 =
      (s, r2,
       MessageReplyEmbed (getEmbedFromGame g)
         :: MsgReact "🇭" :: MsgReact "🇸" :: MsgReact "🇶" :: l3) /\
    Forall (fun e => forall emoji, e <> MsgReact emoji) l3.
Proof.
  intros Hplay. unfold afterStart.
  rewrite (bool_decide_eq_false_2 _ Hplay). simpl negb. cbv iota.
  match goal with
  | |- context [bind (playTurns ?p turns (Some g)) ?k] =>
      assert (Hrest : emitsOnly (fun e => forall emoji, e <> MsgReact emoji)
                        (bind (playTurns p turns (Some g)) k));
      [| set (rest := bind (playTurns p turns (Some g)) k) in * ]
  end.
  { apply emitsOnly_bind; [apply playTurns_emitsOnly; discriminate |].
    intros [g' |]; [| apply emitsOnly_ret].
    unfold endGame, call_endGame.
    repeat (apply emitsOnly_bind; [| intros _]);
      try apply emitsOnly_emit; try apply emitsOnly_ret; try discriminate. }
  specialize (Hrest r1). clearbody rest.
  unfold bind, emit.
  destruct (rest r1) as [[s r2] l3]. simpl in *.
  exists s, r2, l3. split; [reflexivity | exact Hrest].
Qed.

(** X10: for a game that starts in progress, the reactions the command puts
    under the message are the hit, stand and quit emojis, and they are
    exactly the emojis the filter accepts from the author: every reaction
    offered is accepted, and no other is. *)
Theorem offered_reactions_are_the_accepted_ones message args coins turns (r r1 : R)
    (amount : Z) (g : GameState) :
  requestedBet args = Some amount ->
  validateBetAmount amount = "" ->
  amount <= coins (id (author message)) ->
  startGame amount (id (author message)) (channel_id message) r = (Returns (Some g), r1) ->
  stage g <> DONE ->
  reactionsOffered (snd (messageRun getEmojiByName message args coins turns r)) =
    ["🇭"; "🇸"; "🇶"] /\
  (forall name u,
     reactFilter {| emoji_name := Some name |} u (id (author message)) = true <->
     name ∈ reactionsOffered (snd (messageRun getEmojiByName message args coins turns r)) /\
     id u = id (author message)).
Proof.
  intros Hbet Hok Hcov Hstart Hplay.
  assert (Hoffered :
            reactionsOffered (snd (messageRun getEmojiByName message args coins turns r)) =
              ["🇭"; "🇸"; "🇶"]).
  { rewrite messageRun_of_body,
      (messageRunBody_valid_bet getEmojiByName message args coins turns amount r Hbet Hok),
      Hstart.
    destruct (Z.ltb_spec (coins (id (author message))) amount) as [Hlow | _]; [lia |].
    destruct (afterStart_in_progress message turns g r1 Hplay)
      as (s & r2 & l3 & -> & Hl3).
    apply reactionsOffered_none in Hl3.
    destruct s as [a | [text | | | |] |]; cbn [fst snd];
      rewrite ?reactionsOffered_app, !reactionsOffered_cons, Hl3; reflexivity. }
  split; [exact Hoffered |].
  intros name u. rewrite Hoffered, reactFilter_true_iff. simpl.
  rewrite !elem_of_cons, elem_of_nil. split.
  - intros [[[= ->] | [[= ->] | [= ->]]] Hid]; auto.
  - intros [[-> | [-> | [-> | []]]] Hid]; auto.
Qed.

End LoopProperties.

(** * The texts of the embed *)

Section Strings.

Lemma append_assoc (a b c : string) : (a +:+ b) +:+ c = a +:+ (b +:+ c).
Proof.
  induction a as [| x a IH]; [reflexivity |].
  change (String x ((a +:+ b) +:+ c) = String x (a +:+ (b +:+ c))). now rewrite IH.
Qed.

Lemma append_head (x : Ascii.ascii) (a b : string) :
  String x a +:+ b = String x (a +:+ b).
Proof. reflexivity. Qed.

Lemma append_nonempty (a b : string) : a <> "" -> a +:+ b <> "".
Proof. destruct a; [congruence | discriminate]. Qed.

Lemma concat_snoc (sep : string) (l : list string) (x : string) :
  l <> [] -> String.concat sep (l ++ [x]) = String.concat sep l +:+ sep +:+ x.
Proof.
  induction l as [| y l IH]; [congruence | intros _].
  destruct l as [| z l]; [reflexivity |].
  change (y +:+ sep +:+ String.concat sep ((z :: l) ++ [x]) =
          (y +:+ sep +:+ String.concat sep (z :: l)) +:+ sep +:+ x).
  rewrite IH by discriminate. now rewrite !append_assoc.
Qed.

End Strings.

Section Texts.
Import EmbedText.

Variable suitValue : CardSuit -> string.
Variable text : Card -> string.
Variable suite : Card -> string.
Variable playerValue : GameState -> list Z.
Variable dealerValue : GameState -> list Z.
Variable getEmojiByName : string -> string.
Variable getCoinEmoji : string.
Variable pluralize : string -> Z -> string.

(** X11: the suit emoji is empty exactly for a string that is none of the
    four values of the enum CardSuit; when the four values differ, each
    suit gets its own emoji. *)
Theorem getSuitEmoji_known_suits :
  (forall suit, getSuitEmoji suitValue suit = "" <-> forall s, suit <> suitValue s) /\
  (NoDup (suitValue <$> [SPADES; HEARTS; CLUBS; DIAMONDS]) ->
   getSuitEmoji suitValue (suitValue SPADES) = "♤" /\
   getSuitEmoji suitValue (suitValue HEARTS) = "♡" /\
   getSuitEmoji suitValue (suitValue CLUBS) = "♧" /\
   getSuitEmoji suitValue (suitValue DIAMONDS) = "♢").
Proof.
  split.
  - intros suit. unfold getSuitEmoji.
    destruct (String.eqb_spec suit (suitValue SPADES)) as [-> | Hs].
    { split; [discriminate | intros H; now contradiction (H SPADES)]. }
    destruct (String.eqb_spec suit (suitValue HEARTS)) as [-> | Hh].
    { split; [discriminate | intros H; now contradiction (H HEARTS)]. }
    destruct (String.eqb_spec suit (suitValue CLUBS)) as [-> | Hc].
    { split; [discriminate | intros H; now contradiction (H CLUBS)]. }
    destruct (String.eqb_spec suit (suitValue DIAMONDS)) as [-> | Hd].
    { split; [discriminate | intros H; now contradiction (H DIAMONDS)]. }
    split; [intros _ [| | |]; assumption | reflexivity].
  - intros Hdup. simpl in Hdup.
    rewrite !NoDup_cons, !not_elem_of_cons in Hdup.
    destruct Hdup as ((Hsh & Hsc & Hsd & _) & (Hhc & Hhd & _) & (Hcd & _) & _).
    unfold getSuitEmoji. rewrite !String.eqb_refl.
    apply not_eq_sym, String.eqb_neq in Hsh, Hsc, Hsd, Hhc, Hhd, Hcd.
    rewrite Hsh, Hsc, Hsd, Hhc, Hhd, Hcd. auto.
Qed.

(** X12: the display of an empty hand is "Hand: "; the display of one card
    is its text followed by its suit emoji; a card added to a hand that has
    cards adds one space and that card at the end, and leaves the rest of
    the text as it was. *)
Theorem getHandDisplayString_grows_by_card :
  getHandDisplayString suitValue text suite [] = "Hand: " /\
  (forall c,
     getHandDisplayString suitValue text suite [c] =
       "Hand: " +:+ text c +:+ getSuitEmoji suitValue (suite c)) /\
  (forall hand c,
     hand <> [] ->
     getHandDisplayString suitValue text suite (hand ++ [c]) =
       getHandDisplayString suitValue text suite hand
         +:+ " " +:+ text c +:+ getSuitEmoji suitValue (suite c)).
Proof.
  split; [reflexivity |]. split; [reflexivity |].
  intros hand c Hne. unfold getHandDisplayString.
  rewrite List.map_app. simpl List.map.
  rewrite concat_snoc by (destruct hand; [congruence | discriminate]).
  unfold cardDisplay. now rewrite !append_assoc.
Qed.

(** X13: for a game that is DONE, the description and the colour tell the
    same outcome unless the player surrendered: a loss of bet - amountWon
    coins in Red, a win of amountWon - bet coins in Green, a tie in Orange.
    A surrendered game is described as a surrender with the loss of
    |amountWon - bet| coins whatever its colour; with amountWon = 0 that is
    the bet. *)
Theorem description_agrees_with_colour (game : GameState) :
  stage game = DONE ->
  (surrendered game = false -> amountWon game < bet game ->
     getEmbedColourFromGame game = "Red" /\
     getDescriptionFromGame getEmojiByName pluralize game =
       "You lost **" +:+ pretty (bet game - amountWon game) +:+ "** Codey "
         +:+ pluralize "coin" (bet game - amountWon game) +:+ " "
         +:+ getEmojiByName "codey_sad" +:+ ", better luck next time!") /\
  (surrendered game = false -> amountWon game > bet game ->
     getEmbedColourFromGame game = "Green" /\
     getDescriptionFromGame getEmojiByName pluralize game =
       "You won **" +:+ pretty (amountWon game - bet game) +:+ "** Codey "
         +:+ pluralize "coin" (amountWon game - bet game) +:+ " "
         +:+ getEmojiByName "codey_love" +:+ ", keep your win streak going!") /\
  (surrendered game = false -> amountWon game = bet game ->
     getEmbedColourFromGame game = "Orange" /\
     getDescriptionFromGame getEmojiByName pluralize game =
       "Tied! You didn't win nor lose any Codey " +:+ pluralize "coin" 0
         +:+ ", try again!") /\
  (surrendered game = true ->
     getDescriptionFromGame getEmojiByName pluralize game =
       "You surrendered and lost **" +:+ pretty (Z.abs (amountWon game - bet game))
         +:+ "** Codey " +:+ pluralize "coin" (Z.abs (amountWon game - bet game))
         +:+ " " +:+ getEmojiByName "codey_sad" +:+ "." /\
     (amountWon game = 0 -> 0 <= bet game ->
      Z.abs (amountWon game - bet game) = bet game)).
Proof.
  intros Hdone.
  unfold getDescriptionFromGame, getEmbedColourFromGame, getBalanceChange.
  rewrite (bool_decide_eq_true_2 _ Hdone).
  repeat split.
  - destruct (Z.ltb_spec (amountWon game - bet game) 0); [reflexivity | lia].
  - rewrite H.
    destruct (Z.ltb_spec (amountWon game) (bet game)); [| lia].
    now replace (Z.abs (amountWon game - bet game)) with (bet game - amountWon game)
      by lia.
  - destruct (Z.ltb_spec (amountWon game - bet game) 0); [lia |].
    destruct (Z.gtb_spec (amountWon game - bet game) 0); [reflexivity | lia].
  - rewrite H.
    destruct (Z.ltb_spec (amountWon game) (bet game)); [lia |].
    destruct (Z.gtb_spec (amountWon game) (bet game)); [| lia].
    now replace (Z.abs (amountWon game - bet game)) with (amountWon game - bet game)
      by lia.
  - destruct (Z.ltb_spec (amountWon game - bet game) 0); [lia |].
    destruct (Z.gtb_spec (amountWon game - bet game) 0); [lia | reflexivity].
  - rewrite H.
    destruct (Z.ltb_spec (amountWon game) (bet game)); [lia |].
    destruct (Z.gtb_spec (amountWon game) (bet game)); [lia |].
    now replace (Z.abs (amountWon game - bet game)) with 0 by lia.
  - now rewrite H.
  - lia.
Qed.

(** X14: the description is the instruction line (hit, stand, quit) exactly
    when the game is not DONE: a finished game never shows the instructions,
    whatever the emoji and plural helpers return. *)
Theorem instructions_iff_in_progress (game : GameState) :
  getDescriptionFromGame getEmojiByName pluralize game =
    "Press 🇭 to hit, 🇸 to stand, or 🇶 to quit." <->
  stage game <> DONE.
Proof.
  unfold getDescriptionFromGame.
  destruct (decide (stage game = DONE)) as [Hdone | Hplay].
  - rewrite (bool_decide_eq_true_2 _ Hdone).
    split; [| intros H; now contradiction H].
    destruct (surrendered game); [rewrite append_head; discriminate |].
    destruct (amountWon game <? bet game); [rewrite append_head; discriminate |].
    destruct (amountWon game >? bet game); rewrite append_head; discriminate.
  - rewrite (bool_decide_eq_false_2 _ Hplay). split; [auto | reflexivity].
Qed.

(** X15: the embed has three fields, for the bet, the player and the
    dealer, and none of them has an empty name or an empty value, whatever
    the game and whatever the helpers return. *)
Theorem embed_fields_are_never_empty (game : GameState) :
  length (getEmbedFields suitValue text suite playerValue dealerValue
          getEmojiByName getCoinEmoji pluralize game) = 3%nat /\
  Forall (fun f => name f <> "" /\ value f <> "")
    (getEmbedFields suitValue text suite playerValue dealerValue
       getEmojiByName getCoinEmoji pluralize game).
Proof.
  split; [reflexivity |].
  assert (Hdesc : getDescriptionFromGame getEmojiByName pluralize game <> "").
  { unfold getDescriptionFromGame.
    destruct (bool_decide (stage game = DONE)); [| discriminate].
    destruct (surrendered game); [rewrite append_head; discriminate |].
    destruct (amountWon game <? bet game); [rewrite append_head; discriminate |].
    destruct (amountWon game >? bet game); rewrite append_head; discriminate. }
  unfold getEmbedFields, getHandDisplayString.
  repeat constructor; simpl; try exact Hdesc;
    rewrite append_head; discriminate.
Qed.

End Texts.

(** * The further properties at concrete inputs *)

Section MoreInstances.
Import Samples MoreSamples EmbedText.

Local Abbreviation scripted := ScriptedEngine.scriptedEngine.
Local Abbreviation table := (SpecEngine.specEngine stacked).

Lemma startGame_iff_bet_valid_and_covered_witness :
  exists tail,
    snd (messageRun (engine := scripted) emojiText request (betOf 10) exact []
           [Returns (Some dealt)]) =
      GetCoinBalanceByUserId "alice" :: StartGame 10 "alice" "games" :: tail.
Proof.
  apply (proj2 (proj2 (startGame_iff_bet_valid_and_covered (engine := scripted)
                         emojiText request (betOf 10) exact []
                         [Returns (Some dealt)])) 10).
  - reflexivity.
  - lia.
  - reflexivity.
Defined.

Lemma invalid_argument_reported_witness :
  messageRun (engine := scripted) emojiText request notANumber rich [] [] =
    (Done None, [], [SendToUser "please enter a valid bet amount."]).
Proof.
  apply (invalid_argument_reported (engine := scripted) emojiText request notANumber
           rich [] []); reflexivity.
Defined.

Lemma game_done_at_deal_settles_at_once_witness :
  messageRun (engine := scripted) emojiText request noArgs rich
    [period [reacts "🇭" alice]] [Returns (Some natural)] =
  (Done (Some tt), [],
   [ GetCoinBalanceByUserId "alice"; StartGame 10 "alice" "games";
     MessageReplyEmbed (getEmbedFromGame natural);
     MsgEdit (getEmbedFromGame natural);
     ReactionsRemoveAll; EndGame "alice";
     AdjustCoinBalanceByUserId "alice" 10 Blackjack ]).
Proof.
  apply (game_done_at_deal_settles_at_once (engine := scripted) emojiText request
           noArgs rich [period [reacts "🇭" alice]] [Returns (Some natural)] [] 10 natural).
  - reflexivity.
  - reflexivity.
  - unfold rich. lia.
  - reflexivity.
  - reflexivity.
Defined.

Lemma first_valid_reaction_decides_witness :
  handlePlayerAction (engine := scripted) "alice"
    (Some (period ([reacts "🇶" bob; reacts "👍" alice]
                     ++ reacts "🇭" alice :: [reacts "🇸" alice])))
    [Returns (Some lost)] =
  (Done (Some lost), [],
   [ AwaitReactions oneMinute;
     ReactionUsersRemove {| emoji_name := Some "🇭" |} "alice";
     PerformGameAction "alice" HIT ]) /\
  turn (engine := table) "alice"
    (Some {| reactions := [reacts "🇶" bob] ++ reacts "🇭" alice :: [];
             removeRejected := true; editRejected := false |})
    aliceAtTable =
  (Done (Some gaveUp), snd (SpecEngine.performGameAction "alice" QUIT aliceAtTable),
   [ AwaitReactions oneMinute;
     ReactionUsersRemove {| emoji_name := Some "🇭" |} "alice";
     PerformGameAction "alice" QUIT;
     MessageReply "you didn't act within the time limit, please start another game!" ]).
Proof.
  split.
  - destruct (first_valid_reaction_decides (engine := scripted) "alice"
                (period ([reacts "🇶" bob; reacts "👍" alice]
                           ++ reacts "🇭" alice :: [reacts "🇸" alice]))
                [reacts "🇶" bob; reacts "👍" alice] {| emoji_name := Some "🇭" |} alice
                [reacts "🇸" alice] [Returns (Some lost)] eq_refl
                ltac:(repeat constructor) eq_refl)
      as (name & action & Hname & Hact & Haccepted & _).
    injection Hname as <-.
    destruct Hact as [[H _] | [[_ ->] | [H _]]]; try discriminate.
    exact (Haccepted eq_refl).
  - destruct (first_valid_reaction_decides (engine := table) "alice"
                {| reactions := [reacts "🇶" bob] ++ reacts "🇭" alice :: [];
                   removeRejected := true; editRejected := false |}
                [reacts "🇶" bob] {| emoji_name := Some "🇭" |} alice
                [] aliceAtTable eq_refl
                ltac:(repeat constructor) eq_refl)
      as (name & action & _ & _ & _ & Hrejected).
    exact (proj2 (Hrejected eq_refl)).
Defined.

Lemma accepted_reaction_updates_message_witness :
  turn (engine := scripted) "alice"
    (Some (period ([reacts "🇶" bob] ++ reacts "🇸" alice :: []))) [Returns (Some lost)] =
  (Done (Some lost), [],
   [ AwaitReactions oneMinute;
     ReactionUsersRemove {| emoji_name := Some "🇸" |} "alice";
     PerformGameAction "alice" STAND; MsgEdit (getEmbedFromGame lost) ]) /\
  turn (engine := table) "alice"
    (Some {| reactions := [reacts "🇶" bob] ++ reacts "🇸" alice :: [];
             removeRejected := false; editRejected := true |})
    aliceAtTable =
  (Done None, snd (SpecEngine.performGameAction "alice" STAND aliceAtTable),
   [ AwaitReactions oneMinute;
     ReactionUsersRemove {| emoji_name := Some "🇸" |} "alice";
     PerformGameAction "alice" STAND; MsgEdit (getEmbedFromGame lost);
     PerformGameAction "alice" QUIT;
     MessageReply "you didn't act within the time limit, please start another game!" ]).
Proof.
  split.
  - apply (accepted_reaction_updates_message (engine := scripted) "alice"
             (period ([reacts "🇶" bob] ++ reacts "🇸" alice :: []))
             [reacts "🇶" bob] {| emoji_name := Some "🇸" |} alice []
             [Returns (Some lost)] [] "🇸" STAND lost).
    + reflexivity.
    + repeat constructor.
    + reflexivity.
    + reflexivity.
    + left. split; reflexivity.
    + reflexivity.
    + reflexivity.
    + reflexivity.
  - apply (accepted_reaction_updates_message (engine := table) "alice"
             {| reactions := [reacts "🇶" bob] ++ reacts "🇸" alice :: [];
                removeRejected := false; editRejected := true |}
             [reacts "🇶" bob] {| emoji_name := Some "🇸" |} alice []
             aliceAtTable (snd (SpecEngine.performGameAction "alice" STAND aliceAtTable))
             "🇸" STAND lost).
    + reflexivity.
    + repeat constructor.
    + reflexivity.
    + reflexivity.
    + left. split; reflexivity.
    + reflexivity.
    + reflexivity.
    + reflexivity.
Defined.


Lemma user_error_is_last_and_excludes_settlement_witness :
  exists r' pre,
    messageRun (engine := scripted) emojiText request noArgs poor [] [] =
      (Done None, r',
       pre ++ [SendToUser ("you don't have enough coins to place that bet. "
                             +:+ emojiText "codey_sad")]) /\
    Forall notSettlement pre /\
    Forall (fun e => isSendToUser e = false) pre.
Proof.
  apply (user_error_is_last_and_excludes_settlement (engine := scripted)
           emojiText request noArgs poor [] []).
  right. left.
Defined.

Lemma engine_failure_at_start_is_silent_witness :
  messageRun (engine := scripted) emojiText request noArgs rich [] 
    [Throws EngineInvariantError] =
  (Done None, [], [GetCoinBalanceByUserId "alice"; StartGame 10 "alice" "games"]).
Proof.
  apply (engine_failure_at_start_is_silent (engine := scripted) emojiText request
           noArgs rich [] [Throws EngineInvariantError] [] 10 EngineInvariantError).
  - reflexivity.
  - reflexivity.
  - unfold rich. lia.
  - reflexivity.
  - discriminate.
Defined.

Lemma offered_reactions_are_the_accepted_ones_witness :
  reactionsOffered
    (snd (messageRun (engine := scripted) emojiText request noArgs rich []
            [Returns (Some dealt)])) = ["🇭"; "🇸"; "🇶"] /\
  (forall name u,
     reactFilter {| emoji_name := Some name |} u "alice" = true <->
     name ∈ reactionsOffered
              (snd (messageRun (engine := scripted) emojiText request noArgs rich []
                      [Returns (Some dealt)])) /\
     id u = "alice").
Proof.
  apply (offered_reactions_are_the_accepted_ones (engine := scripted) emojiText request
           noArgs rich [] [Returns (Some dealt)] [] 10 dealt).
  - reflexivity.
  - reflexivity.
  - unfold rich. lia.
  - reflexivity.
  - discriminate.
Defined.

Lemma getSuitEmoji_known_suits_witness :
  getSuitEmoji suitName "spades" = "♤" /\ getSuitEmoji suitName "hearts" = "♡" /\
  getSuitEmoji suitName "clubs" = "♧" /\ getSuitEmoji suitName "diamonds" = "♢".
Proof.
  apply (proj2 (getSuitEmoji_known_suits suitName)).
  simpl. repeat (apply NoDup_cons; split); try apply NoDup_nil_2;
    rewrite ?not_elem_of_cons; repeat split; try discriminate; apply not_elem_of_nil.
Defined.

Lemma getHandDisplayString_grows_by_card_witness :
  getHandDisplayString suitName rankText suiteOf
    ([card King SPADES; card Queen HEARTS] ++ [card Ace CLUBS]) =
  getHandDisplayString suitName rankText suiteOf [card King SPADES; card Queen HEARTS]
    +:+ " " +:+ "A" +:+ "♧".
Proof.
  apply (proj2 (proj2 (getHandDisplayString_grows_by_card suitName rankText suiteOf))
           [card King SPADES; card Queen HEARTS] (card Ace CLUBS)).
  discriminate.
Defined.

Lemma description_agrees_with_colour_witness :
  getEmbedColourFromGame lost = "Red" /\
  getDescriptionFromGame emojiText plural lost =
    "You lost **10** Codey coins :codey_sad:, better luck next time!".
Proof.
  apply (proj1 (description_agrees_with_colour emojiText plural lost eq_refl));
    reflexivity.
Defined.

Lemma instructions_iff_in_progress_witness :
  getDescriptionFromGame emojiText plural dealt =
    "Press 🇭 to hit, 🇸 to stand, or 🇶 to quit.".
Proof.
  apply (proj2 (instructions_iff_in_progress emojiText plural dealt)).
  discriminate.
Defined.

End MoreInstances.
